(** * Resource adapters of the AWS provider: SESv2 Tenant and Clean Rooms
      Configured Table

    A shallow embedding of [internal/service/sesv2/tenant.go] (the Plugin
    Framework resource [aws_sesv2_tenant] and its sweeper) and of the
    Clean Rooms resource [aws_cleanrooms_configured_table] (Plugin SDK v2),
    together with the properties of their create / read / update / delete
    functions.  Line numbers are those of [tenant.go], which holds both
    resources: the tenant up to line 524, the configured table after it.

    Conventions of the embedding:
    - a Go pointer [*T] is an [option T] ([nil] is [None]);
    - a Go result [(out, err)] is a pair of options, because the source
      tests [err != nil] and [out == nil] separately;
    - a run of a function either finishes ([Done]) or panics ([Panic]);
    - the remote service is a parameter: a client is a record of
      operations over the service's state [R], passed explicitly. *)

From Stdlib Require Import ZArith Ascii.
From stdpp Require Import base option list strings gmap.

Local Open Scope string_scope.
Local Open Scope list_scope.

(** ** Panics and outcomes *)

Inductive panic : Type :=
| NilPointerDereference      (* invalid memory address or nil pointer dereference *)
| IndexOutOfRange            (* index out of range [i] with length n *)
| InterfaceConversion.       (* failed type assertion x.(T) *)

Inductive outcome (A : Type) : Type :=
| Done (a : A)
| Panic (p : panic).
Arguments Done {A} a.
Arguments Panic {A} p.

Definition is_Done {A} (o : outcome A) : bool :=
  match o with Done _ => true | Panic _ => false end.

(** ** Go errors

    The error values that occur in the two resources.  [SmartErr] is the
    wrapper built by [smarterr.NewError]; [RetryNotFoundError] is
    [&retry.NotFoundError{LastError: err}]; both unwrap to the error they
    carry. *)

Inductive error : Type :=
| NotFoundException (msg : string)          (* sesv2 *awstypes.NotFoundException *)
| ResourceNotFoundException (msg : string)  (* cleanrooms *types.ResourceNotFoundException *)
| APIError (code msg : string)              (* any other error of the API or the transport *)
| ErrorsNew (msg : string)                  (* errors.New(msg), fmt.Errorf(msg) *)
| RetryNotFoundError (LastError : error)
| EmptyResultError                          (* tfresource.NewEmptyResultError(in) *)
| SmartErr (err : error).

#[global] Instance error_eq_dec : EqDecision error.
Proof. solve_decision. Defined.

(** [errors.As]: walk the chain of wrapped errors until one satisfies
    [target]. *)
Fixpoint errors_As (target : error -> bool) (e : error) : bool :=
  target e ||
  match e with
  | RetryNotFoundError last => errors_As target last
  | SmartErr e' => errors_As target e'
  | _ => false
  end.

(** Modelled from the spec: [errs.IsA] of [internal/errs] is not part of
    the sources; it is [errors.As] at the given error type.  Here at
    [*awstypes.NotFoundException]. *)
Definition errs_IsA_NotFoundException (e : error) : bool :=
  errors_As (fun e => match e with NotFoundException _ => true | _ => false end) e.

(** Modelled from the spec: [tfresource.NotFound] of [internal/tfresource]
    is not part of the sources.  It recognises the provider's own
    not-found error ([retry.NotFoundError], anywhere in the chain) and the
    empty-result error, which converts to it; the spec's [NotFound] kind,
    "distinct from other errors".  [nil] is not a not-found error. *)
Definition tfresource_NotFound (err : option error) : bool :=
  match err with
  | None => false
  | Some e =>
      errors_As (fun e => match e with
                          | RetryNotFoundError _ | EmptyResultError => true
                          | _ => false
                          end) e
  end.

(** ** Attribute names

    Modelled from the spec: the constants of package [names] are not part
    of the sources.  Their values are the attribute names: the [tfsdk]
    tags of the tenant model pair [ARN], [ID], [Tags] and [TagsAll] with
    them, and line 644 reads with the literal what line 636 reads with
    [names.AttrName]. *)

Definition names_AttrARN : string := "arn".
Definition names_AttrDescription : string := "description".
Definition names_AttrID : string := "id".
Definition names_AttrName : string := "name".
Definition names_AttrTags : string := "tags".
Definition names_AttrTagsAll : string := "tags_all".

(** ** SDK helpers: [aws.String], [aws.ToString] *)

Definition aws_String (s : string) : option string := Some s.

Definition aws_ToString (p : option string) : string :=
  match p with Some s => s | None => "" end.

(** ** [time.Time] and [Format(time.RFC3339)]

    A time is kept as its civil fields and the offset of its zone in
    seconds east of UTC.  [aws.ToTime(nil)] is the zero time. *)

Record Time := {
  year : Z; month : Z; day : Z;
  hour : Z; minute : Z; second : Z;
  zone_offset : Z
}.

Definition zero_Time : Time :=
  {| year := 1; month := 1; day := 1; hour := 0; minute := 0; second := 0;
     zone_offset := 0 |}.

Definition aws_ToTime (p : option Time) : Time :=
  match p with Some t => t | None => zero_Time end.

Definition digit (n : Z) : string :=
  String (ascii_of_nat (48 + Z.to_nat (n mod 10))) "".

Definition pad2 (n : Z) : string := digit (n / 10) +:+ digit n.

Definition pad4 (n : Z) : string := pad2 (n / 100) +:+ pad2 n.

(** Layout [2006-01-02T15:04:05Z07:00]: the zone is [Z] for UTC and
    [+hh:mm] or [-hh:mm] otherwise. *)
Definition Format_RFC3339 (t : Time) : string :=
  pad4 (year t) +:+ "-" +:+ pad2 (month t) +:+ "-" +:+ pad2 (day t) +:+ "T" +:+
  pad2 (hour t) +:+ ":" +:+ pad2 (minute t) +:+ ":" +:+ pad2 (second t) +:+
  (if (zone_offset t =? 0)%Z then "Z"
   else
     let a := Z.abs (zone_offset t) in
     (if (zone_offset t <? 0)%Z then "-" else "+") +:+
     pad2 (a / 3600) +:+ ":" +:+ pad2 ((a / 60) mod 60)).

(** ** Plugin Framework values *)

Inductive types_String : Type :=
| StringNull
| StringUnknown
| StringValue (s : string).

#[global] Instance types_String_eq_dec : EqDecision types_String.
Proof. solve_decision. Defined.

(** [ValueString]: the empty string for null and unknown. *)
Definition ValueString (v : types_String) : string :=
  match v with StringValue s => s | _ => "" end.

(** [ValueStringPointer]: [nil] for null, a pointer to the empty string
    for unknown. *)
Definition ValueStringPointer (v : types_String) : option string :=
  match v with
  | StringNull => None
  | StringUnknown => Some ""
  | StringValue s => Some s
  end.

Inductive tftags_Map : Type :=
| MapNull
| MapUnknown
| MapValue (m : gmap string string).

(** ** Diagnostics of the Plugin Framework *)

Inductive diagnostic : Type :=
| ErrorDiagnostic (err : error) (id : types_String)
| WarningDiagnostic (err : option error).

Definition is_error (d : diagnostic) : bool :=
  match d with ErrorDiagnostic _ _ => true | WarningDiagnostic _ => false end.

Definition HasError (ds : list diagnostic) : bool := existsb is_error ds.

(** Modelled from the spec: [smerr.AddError] of [internal/smerr] is not
    part of the sources; it appends an error diagnostic for [err], "with
    the identifier attached for diagnosis". *)
Definition smerr_AddError (ds : list diagnostic) (err : error) (id : types_String)
  : list diagnostic :=
  ds ++ [ErrorDiagnostic err id].

(** Modelled from the spec: [fwdiag.NewResourceNotFoundWarningDiagnostic]
    of [internal/errs/fwdiag] is not part of the sources; a warning, not an
    error, for the record that is dropped. *)
Definition fwdiag_NewResourceNotFoundWarningDiagnostic (err : option error)
  : diagnostic :=
  WarningDiagnostic err.

(** * SESv2 Tenant ([internal/service/sesv2/tenant.go]) *)

Module Sesv2.

(** ** SDK types of [service/sesv2] *)

Record Tag := { Tag_Key : option string; Tag_Value : option string }.

Record Tenant := {
  Tenant_CreatedTimestamp : option Time;
  Tenant_SendingStatus : string;
  Tenant_Tags : list Tag;
  Tenant_TenantArn : option string;
  Tenant_TenantId : option string;
  Tenant_TenantName : option string
}.

Record TenantInfo := {
  TenantInfo_CreatedTimestamp : option Time;
  TenantInfo_TenantArn : option string;
  TenantInfo_TenantId : option string;
  TenantInfo_TenantName : option string
}.

Record CreateTenantInput := {
  CreateTenantInput_TenantName : option string;
  CreateTenantInput_Tags : list Tag
}.

Record CreateTenantOutput := {
  CreateTenantOutput_CreatedTimestamp : option Time;
  CreateTenantOutput_SendingStatus : string;
  CreateTenantOutput_Tags : list Tag;
  CreateTenantOutput_TenantArn : option string;
  CreateTenantOutput_TenantId : option string;
  CreateTenantOutput_TenantName : option string
}.

Record GetTenantInput := { GetTenantInput_TenantName : option string }.
Record GetTenantOutput := { GetTenantOutput_Tenant : option Tenant }.

Record DeleteTenantInput := { DeleteTenantInput_TenantName : option string }.
Record DeleteTenantOutput := { }.

Record ListTenantsInput := { ListTenantsInput_NextToken : option string }.
Record ListTenantsOutput := {
  ListTenantsOutput_NextToken : option string;
  ListTenantsOutput_Tenants : list TenantInfo
}.

(** The client, over the state [R] of the remote service: every operation
    returns the Go pair [(out, err)] and the service's next state. *)
Record Client (R : Type) := {
  CreateTenant : CreateTenantInput -> R -> (option CreateTenantOutput * option error) * R;
  GetTenant : GetTenantInput -> R -> (option GetTenantOutput * option error) * R;
  DeleteTenant : DeleteTenantInput -> R -> (option DeleteTenantOutput * option error) * R;
  ListTenants : ListTenantsInput -> R -> (option ListTenantsOutput * option error) * R
}.
Arguments CreateTenant {R} _ _ _.
Arguments GetTenant {R} _ _ _.
Arguments DeleteTenant {R} _ _ _.
Arguments ListTenants {R} _ _ _.

(** ** The resource model and its schema *)

Record resourceTenantModel := {
  Region : types_String;              (* framework.WithRegionModel *)
  ARN : types_String;
  CreatedTimestamp : types_String;
  ID : types_String;
  SendingStatus : types_String;
  Tags : tftags_Map;
  TagsAll : tftags_Map;
  TenantName : types_String
}.

Record attribute := {
  Computed : bool;
  Required : bool;
  Optional : bool;
  RequiresReplace : bool
}.

Definition Schema : list (string * attribute) :=
  [ (names_AttrARN, {| Computed := true; Required := false; Optional := false; RequiresReplace := false |});
    ("created_timestamp", {| Computed := true; Required := false; Optional := false; RequiresReplace := false |});
    (names_AttrID, {| Computed := true; Required := false; Optional := false; RequiresReplace := false |});
    ("tenant_name", {| Computed := false; Required := true; Optional := false; RequiresReplace := true |});
    ("sending_status", {| Computed := true; Required := false; Optional := false; RequiresReplace := false |});
    (names_AttrTags, {| Computed := false; Required := false; Optional := true; RequiresReplace := false |});
    (names_AttrTagsAll, {| Computed := true; Required := false; Optional := false; RequiresReplace := false |}) ].

(** Struct fields of [resourceTenantModel] of type [types.String], with
    their [tfsdk] tag. *)
Definition model_fields : list (string * string) :=
  [ ("ARN", "arn"); ("CreatedTimestamp", "created_timestamp"); ("ID", "id");
    ("SendingStatus", "sending_status"); ("TenantName", "tenant_name") ].

Definition set_ARN v m :=
  {| Region := Region m; ARN := v; CreatedTimestamp := CreatedTimestamp m; ID := ID m;
     SendingStatus := SendingStatus m; Tags := Tags m; TagsAll := TagsAll m;
     TenantName := TenantName m |}.
Definition set_CreatedTimestamp v m :=
  {| Region := Region m; ARN := ARN m; CreatedTimestamp := v; ID := ID m;
     SendingStatus := SendingStatus m; Tags := Tags m; TagsAll := TagsAll m;
     TenantName := TenantName m |}.
Definition set_ID v m :=
  {| Region := Region m; ARN := ARN m; CreatedTimestamp := CreatedTimestamp m; ID := v;
     SendingStatus := SendingStatus m; Tags := Tags m; TagsAll := TagsAll m;
     TenantName := TenantName m |}.
Definition set_SendingStatus v m :=
  {| Region := Region m; ARN := ARN m; CreatedTimestamp := CreatedTimestamp m; ID := ID m;
     SendingStatus := v; Tags := Tags m; TagsAll := TagsAll m;
     TenantName := TenantName m |}.
Definition set_TenantName v m :=
  {| Region := Region m; ARN := ARN m; CreatedTimestamp := CreatedTimestamp m; ID := ID m;
     SendingStatus := SendingStatus m; Tags := Tags m; TagsAll := TagsAll m;
     TenantName := v |}.

Definition set_field (f : string) (v : types_String) (m : resourceTenantModel)
  : resourceTenantModel :=
  if decide (f = "ARN") then set_ARN v m
  else if decide (f = "CreatedTimestamp") then set_CreatedTimestamp v m
  else if decide (f = "ID") then set_ID v m
  else if decide (f = "SendingStatus") then set_SendingStatus v m
  else if decide (f = "TenantName") then set_TenantName v m
  else m.

(** ** Field mapping: [flex.Expand] and [flex.Flatten] *)

Definition upper_ascii (c : ascii) : ascii :=
  let n := nat_of_ascii c in
  if (97 <=? n)%nat && (n <=? 122)%nat then ascii_of_nat (n - 32) else c.

Fixpoint to_upper (s : string) : string :=
  match s with
  | EmptyString => EmptyString
  | String c s' => String (upper_ascii c) (to_upper s')
  end.

Fixpoint strip_prefix (p s : string) : option string :=
  match p, s with
  | EmptyString, _ => Some s
  | String a p', String b s' => if decide (a = b) then strip_prefix p' s' else None
  | String _ _, EmptyString => None
  end.

Record FlattenOptions := {
  FieldNamePrefix : option string;
  IgnoredFieldNames : list string
}.

(** A field of the remote struct: a [*string], or a value of another
    type (a timestamp, a list of tags). *)
Inductive remote_value : Type :=
| RString (p : option string)
| ROther.

(** The local field with this name, compared without regard to case. *)
Definition find_local (name : string) : option (string * string) :=
  List.find (fun ft => bool_decide (to_upper (fst ft) = to_upper name)) model_fields.

(** The local field a remote field is copied to: none when the name is
    ignored; the field of the same name (direct value copy); else, with a
    prefix, the field named by the rest of the name (rename-only copy);
    else none (the remote field is dropped). *)
Definition find_target (opts : FlattenOptions) (name : string) : option (string * string) :=
  if bool_decide (name ∈ IgnoredFieldNames opts) then None
  else match find_local name with
       | Some ft => Some ft
       | None =>
           match FieldNamePrefix opts with
           | Some p =>
               match strip_prefix p name with
               | Some rest => find_local rest
               | None => None
               end
           | None => None
           end
       end.

Definition is_computed (tfsdk : string) : bool :=
  match List.find (fun na => bool_decide (fst na = tfsdk)) Schema with
  | Some (_, a) => Computed a
  | None => false
  end.

Definition flatten_field (opts : FlattenOptions) (m : resourceTenantModel)
    (nv : string * remote_value) : resourceTenantModel :=
  match snd nv, find_target opts (fst nv) with
  | RString p, Some (f, tfsdk) =>
      if is_computed tfsdk
      then set_field f (match p with Some s => StringValue s | None => StringNull end) m
      else m
  | _, _ => m
  end.

(** Modelled from the spec: [flex.Flatten] of [internal/framework/flex] is
    not part of the sources.  Section 4.1: a correspondence between remote
    and local field names with three kinds of mapping (direct value copy,
    rename-only copy, ignored), remote fields without a local field are
    dropped without a diagnostic; the mapping overwrites the computed
    fields of the record and preserves the user-supplied ones. *)
Definition flex_Flatten (opts : FlattenOptions) (from : list (string * remote_value))
    (to : resourceTenantModel) : list diagnostic * resourceTenantModel :=
  ([], fold_left (flatten_field opts) from to).

Definition CreateTenantOutput_fields (out : CreateTenantOutput) : list (string * remote_value) :=
  [ ("CreatedTimestamp", ROther);
    ("SendingStatus", RString (Some (CreateTenantOutput_SendingStatus out)));
    ("Tags", ROther);
    ("TenantArn", RString (CreateTenantOutput_TenantArn out));
    ("TenantId", RString (CreateTenantOutput_TenantId out));
    ("TenantName", RString (CreateTenantOutput_TenantName out)) ].

Definition Tenant_fields (t : Tenant) : list (string * remote_value) :=
  [ ("CreatedTimestamp", ROther);
    ("SendingStatus", RString (Some (Tenant_SendingStatus t)));
    ("Tags", ROther);
    ("TenantArn", RString (Tenant_TenantArn t));
    ("TenantId", RString (Tenant_TenantId t));
    ("TenantName", RString (Tenant_TenantName t)) ].

(** Modelled from the spec: [flex.Expand] of [internal/framework/flex] is
    not part of the sources.  The create request takes the tenant name by
    direct copy; tags are "handled by a separate mechanism" and are not
    mapped. *)
Definition flex_Expand (plan : resourceTenantModel) : list diagnostic * CreateTenantInput :=
  ([], {| CreateTenantInput_TenantName := ValueStringPointer (TenantName plan);
          CreateTenantInput_Tags := [] |}).

(** ** Requests and responses of the Plugin Framework

    The request's plan or state is read into the typed model; it is typed
    by the schema, so [req.Plan.Get] and [req.State.Get] report nothing.
    A response carries the diagnostics and the state to be stored:
    [State.Set] stores a record, [State.RemoveResource] stores none. *)

Record Response := {
  Diagnostics : list diagnostic;
  State : option resourceTenantModel
}.

Definition empty_output : error := ErrorsNew "empty output".

(** [resourceTenant.Create], lines 97-139. *)
Definition Create {R} (conn : Client R) (plan : resourceTenantModel) (r : R)
  : Response * R :=
  let diags := [] in
  let '(d, input) := flex_Expand plan in
  let diags := diags ++ d in
  if HasError diags then ({| Diagnostics := diags; State := None |}, r) else
  let '((out, err), r) := CreateTenant conn input r in
  match err with
  | Some e =>
      ({| Diagnostics := smerr_AddError diags e (TenantName plan); State := None |}, r)
  | None =>
      match out with
      | None =>
          ({| Diagnostics := smerr_AddError diags empty_output (TenantName plan);
              State := None |}, r)
      | Some o =>
          match CreateTenantOutput_TenantId o with
          | None =>
              ({| Diagnostics := smerr_AddError diags empty_output (TenantName plan);
                  State := None |}, r)
          | Some _ =>
              let '(d, plan) :=
                flex_Flatten {| FieldNamePrefix := Some "Tenant";
                                IgnoredFieldNames := ["CreatedTimestamp"; "Tags"] |}
                             (CreateTenantOutput_fields o) plan in
              let diags := diags ++ d in
              if HasError diags then ({| Diagnostics := diags; State := None |}, r) else
              let plan := set_ID (StringValue (aws_ToString (CreateTenantOutput_TenantId o))) plan in
              let plan := set_ARN (StringValue (aws_ToString (CreateTenantOutput_TenantArn o))) plan in
              let plan :=
                set_CreatedTimestamp
                  (StringValue (Format_RFC3339 (aws_ToTime (CreateTenantOutput_CreatedTimestamp o))))
                  plan in
              ({| Diagnostics := diags; State := Some plan |}, r)
          end
      end
  end.

(** [FindTenantByName], lines 440-462. *)
Definition FindTenantByName {R} (conn : Client R) (name : string) (r : R)
  : (option Tenant * option error) * R :=
  let input := {| GetTenantInput_TenantName := aws_String name |} in
  let '((out, err), r) := GetTenant conn input r in
  match err with
  | Some e =>
      if errs_IsA_NotFoundException e
      then ((None, Some (SmartErr (RetryNotFoundError e))), r)
      else ((None, Some (SmartErr e)), r)
  | None =>
      match out with
      | None => ((None, Some (SmartErr EmptyResultError)), r)
      | Some o =>
          match GetTenantOutput_Tenant o with
          | None => ((None, Some (SmartErr EmptyResultError)), r)
          | Some t => ((Some t, None), r)
          end
      end
  end.

(** [resourceTenant.Read], lines 141-189.  Line 167 prints
    [*out.TenantName] before [err] is looked at: the argument is evaluated
    first, and dereferencing a nil [out], or a nil [out.TenantName],
    panics. *)
Definition Read {R} (conn : Client R) (state : resourceTenantModel) (r : R)
  : outcome Response * R :=
  let diags := [] in
  let '((out, err), r) := FindTenantByName conn (ValueString (TenantName state)) r in
  match out with
  | None => (Panic NilPointerDereference, r)
  | Some t =>
      match Tenant_TenantName t with
      | None => (Panic NilPointerDereference, r)
      | Some _ =>
          if tfresource_NotFound err then
            (Done {| Diagnostics := diags ++ [fwdiag_NewResourceNotFoundWarningDiagnostic err];
                     State := None |}, r)
          else
            match err with
            | Some e =>
                (Done {| Diagnostics := smerr_AddError diags e (ID state);
                         State := Some state |}, r)
            | None =>
                let state0 := state in
                let state :=
                  set_CreatedTimestamp
                    (StringValue (Format_RFC3339 (aws_ToTime (Tenant_CreatedTimestamp t))))
                    state in
                let '(d, state) :=
                  flex_Flatten {| FieldNamePrefix := None;
                                  IgnoredFieldNames := ["Tags"; "CreatedTimestamp"] |}
                               (Tenant_fields t) state in
                let diags := diags ++ d in
                if HasError diags
                then (Done {| Diagnostics := diags; State := Some state0 |}, r)
                else (Done {| Diagnostics := diags; State := Some state |}, r)
            end
      end
  end.

(** [resourceTenant.Delete], lines 267-318.  The function does not touch
    the response's state. *)
Definition Delete {R} (conn : Client R) (state : resourceTenantModel) (r : R)
  : Response * R :=
  let diags := [] in
  let input := {| DeleteTenantInput_TenantName := ValueStringPointer (TenantName state) |} in
  let '((_, err), r) := DeleteTenant conn input r in
  match err with
  | Some e =>
      if errs_IsA_NotFoundException e
      then ({| Diagnostics := diags; State := Some state |}, r)
      else ({| Diagnostics := smerr_AddError diags e (ID state); State := Some state |}, r)
  | None => ({| Diagnostics := diags; State := Some state |}, r)
  end.

(** [resourceTenant.ImportState], lines 327-329:
    [resource.ImportStatePassthroughID] at [path.Root("id")] writes the
    import identifier to the [id] attribute of an otherwise null state. *)
Definition null_model : resourceTenantModel :=
  {| Region := StringNull; ARN := StringNull; CreatedTimestamp := StringNull;
     ID := StringNull; SendingStatus := StringNull; Tags := MapNull; TagsAll := MapNull;
     TenantName := StringNull |}.

Definition ImportState (req_ID : string) : Response :=
  {| Diagnostics := []; State := Some (set_ID (StringValue req_ID) null_model) |}.

(** ** The sweeper *)

(** Modelled from the spec: [sweepfw.NewSweepResource] and
    [sweepfw.NewAttribute] of [internal/sweep/framework] are not part of
    the sources; "a deletable handle keyed by identifier": the resource to
    delete and the attributes that identify it. *)
Record Sweepable := {
  sweep_resource : string;
  sweep_attributes : list (string * string)
}.

Definition ResNameTenant : string := "Tenant".

Definition NewSweepResource (v : TenantInfo) : Sweepable :=
  {| sweep_resource := ResNameTenant;
     sweep_attributes := [(names_AttrID, aws_ToString (TenantInfo_TenantId v))] |}.

(** The SDK's paginator ([sesv2.NewListTenantsPaginator], with its default
    options): the first page is always asked for, further ones while the
    last page carried a non-empty token. *)
Record ListTenantsPaginator := {
  firstPage : bool;
  nextToken : option string
}.

Definition NewListTenantsPaginator : ListTenantsPaginator :=
  {| firstPage := true; nextToken := None |}.

Definition HasMorePages (p : ListTenantsPaginator) : bool :=
  firstPage p ||
  match nextToken p with
  | Some t => negb (bool_decide (t = ""))
  | None => false
  end.

Definition NextPage {R} (conn : Client R) (p : ListTenantsPaginator) (r : R)
  : outcome ((option ListTenantsOutput * option error) * ListTenantsPaginator) * R :=
  if negb (HasMorePages p)
  then (Done ((None, Some (ErrorsNew "no more pages available")), p), r)
  else
    let '((result, err), r) :=
      ListTenants conn {| ListTenantsInput_NextToken := nextToken p |} r in
    match err with
    | Some e => (Done ((None, Some e), p), r)
    | None =>
        match result with
        | None => (Panic NilPointerDereference, r)
        | Some res =>
            (Done ((Some res, None),
                   {| firstPage := false; nextToken := ListTenantsOutput_NextToken res |}), r)
        end
    end.

(** The loop of [sweepTenants], lines 510-521.  The Go loop runs as long
    as the service hands out tokens; [fuel] bounds the number of pages,
    and [None] means that the bound was reached. *)
Fixpoint sweep_loop {R} (fuel : nat) (conn : Client R) (pages : ListTenantsPaginator)
    (sweepResources : list Sweepable) (r : R)
  : option (outcome (list Sweepable * option error) * R) :=
  if negb (HasMorePages pages) then Some (Done (sweepResources, None), r)
  else
    match fuel with
    | O => None
    | S fuel =>
        match NextPage conn pages r with
        | (Panic p, r) => Some (Panic p, r)
        | (Done ((_, Some e), _), r) => Some (Done ([], Some (SmartErr e)), r)
        | (Done ((None, None), _), r) => Some (Panic NilPointerDereference, r)
        | (Done ((Some page, None), pages), r) =>
            sweep_loop fuel conn pages
              (sweepResources ++ map NewSweepResource (ListTenantsOutput_Tenants page)) r
        end
    end.

(** [sweepTenants], lines 504-524. *)
Definition sweepTenants {R} (fuel : nat) (conn : Client R) (r : R)
  : option (outcome (list Sweepable * option error) * R) :=
  sweep_loop fuel conn NewListTenantsPaginator [] r.

(** ** Services to run the adapter against *)

Definition TenantInfo_of (t : Tenant) : TenantInfo :=
  {| TenantInfo_CreatedTimestamp := Tenant_CreatedTimestamp t;
     TenantInfo_TenantArn := Tenant_TenantArn t;
     TenantInfo_TenantId := Tenant_TenantId t;
     TenantInfo_TenantName := Tenant_TenantName t |}.

Definition new_Tenant (name : string) : Tenant :=
  {| Tenant_CreatedTimestamp := Some zero_Time;
     Tenant_SendingStatus := "ENABLED";
     Tenant_Tags := [];
     Tenant_TenantArn := Some ("arn:aws:ses:us-east-1:123456789012:tenant/id-" +:+ name);
     Tenant_TenantId := Some ("id-" +:+ name);
     Tenant_TenantName := Some name |}.

(** A service that keeps its tenants in a map by tenant name, and answers
    [NotFoundException] for a name it does not hold. *)
Definition memory_service : Client (gmap string Tenant) :=
  {| CreateTenant := fun input m =>
       let name := aws_ToString (CreateTenantInput_TenantName input) in
       match m !! name with
       | Some _ => ((None, Some (APIError "AlreadyExistsException" name)), m)
       | None =>
           let t := new_Tenant name in
           ((Some {| CreateTenantOutput_CreatedTimestamp := Tenant_CreatedTimestamp t;
                     CreateTenantOutput_SendingStatus := Tenant_SendingStatus t;
                     CreateTenantOutput_Tags := [];
                     CreateTenantOutput_TenantArn := Tenant_TenantArn t;
                     CreateTenantOutput_TenantId := Tenant_TenantId t;
                     CreateTenantOutput_TenantName := Tenant_TenantName t |}, None),
            <[name := t]> m)
       end;
     GetTenant := fun input m =>
       let name := aws_ToString (GetTenantInput_TenantName input) in
       match m !! name with
       | Some t => ((Some {| GetTenantOutput_Tenant := Some t |}, None), m)
       | None => ((None, Some (NotFoundException name)), m)
       end;
     DeleteTenant := fun input m =>
       let name := aws_ToString (DeleteTenantInput_TenantName input) in
       match m !! name with
       | Some _ => ((Some Build_DeleteTenantOutput, None), delete name m)
       | None => ((None, Some (NotFoundException name)), m)
       end;
     ListTenants := fun _ m =>
       ((Some {| ListTenantsOutput_NextToken := None;
                 ListTenantsOutput_Tenants := map (fun kt => TenantInfo_of (snd kt)) (map_to_list m) |},
         None), m) |}.

Definition not_scripted {A} : option A * option error :=
  (None, Some (APIError "UnsupportedOperation" "")).

(** A service that answers [CreateTenant] with a fixed reply. *)
Definition replying_service (reply : option CreateTenantOutput * option error) : Client unit :=
  {| CreateTenant := fun _ u => (reply, u);
     GetTenant := fun _ u => (not_scripted, u);
     DeleteTenant := fun _ u => (not_scripted, u);
     ListTenants := fun _ u => (not_scripted, u) |}.

(** A service that plays a script of list pages: every [ListTenants] call
    takes the next entry, a page of tenants or a failure; a page carries
    a token as long as entries remain. *)
Definition paged_service : Client (list (list TenantInfo + error)) :=
  {| CreateTenant := fun _ s => (not_scripted, s);
     GetTenant := fun _ s => (not_scripted, s);
     DeleteTenant := fun _ s => (not_scripted, s);
     ListTenants := fun _ s =>
       match s with
       | [] => ((Some {| ListTenantsOutput_NextToken := None;
                         ListTenantsOutput_Tenants := [] |}, None), [])
       | inl ts :: rest =>
           ((Some {| ListTenantsOutput_NextToken :=
                       match rest with [] => None | _ :: _ => Some "next" end;
                     ListTenantsOutput_Tenants := ts |}, None), rest)
       | inr e :: rest => ((None, Some e), rest)
       end |}.

End Sesv2.

(** * Clean Rooms Configured Table *)

Module Cleanrooms.

(** ** SDK types of [service/cleanrooms] *)

Inductive AnalysisMethod : Type :=
| AnalysisMethodDirectQuery.

Record GlueTableReference := {
  DatabaseName : option string;
  TableName : option string
}.

(** The union [types.TableReference]: the Glue member, or another
    member. *)
Inductive TableReference : Type :=
| TableReferenceMemberGlue (Value : GlueTableReference)
| TableReferenceMemberOther.

Record ConfiguredTable := {
  ConfiguredTable_AllowedColumns : list string;
  ConfiguredTable_AnalysisMethod : AnalysisMethod;
  ConfiguredTable_Arn : option string;
  ConfiguredTable_CreateTime : option Time;
  ConfiguredTable_Description : option string;
  ConfiguredTable_Id : option string;
  ConfiguredTable_Name : option string;
  ConfiguredTable_TableReference : option TableReference;
  ConfiguredTable_UpdateTime : option Time
}.

Record CreateConfiguredTableInput := {
  CreateInput_AllowedColumns : list string;
  CreateInput_AnalysisMethod : AnalysisMethod;
  CreateInput_Name : option string;
  CreateInput_TableReference : option TableReference;
  CreateInput_Description : option string;
  CreateInput_Tags : gmap string string
}.
Record CreateConfiguredTableOutput := { CreateOutput_ConfiguredTable : option ConfiguredTable }.

Record GetConfiguredTableInput := { GetInput_ConfiguredTableIdentifier : option string }.
Record GetConfiguredTableOutput := { GetOutput_ConfiguredTable : option ConfiguredTable }.

Record UpdateConfiguredTableInput := {
  UpdateInput_ConfiguredTableIdentifier : option string;
  UpdateInput_Description : option string;
  UpdateInput_Name : option string
}.
Record UpdateConfiguredTableOutput := { UpdateOutput_ConfiguredTable : option ConfiguredTable }.

Record DeleteConfiguredTableInput := { DeleteInput_ConfiguredTableIdentifier : option string }.
Record DeleteConfiguredTableOutput := { }.

Record Client (R : Type) := {
  CreateConfiguredTable :
    CreateConfiguredTableInput -> R -> (option CreateConfiguredTableOutput * option error) * R;
  GetConfiguredTable :
    GetConfiguredTableInput -> R -> (option GetConfiguredTableOutput * option error) * R;
  UpdateConfiguredTable :
    UpdateConfiguredTableInput -> R -> (option UpdateConfiguredTableOutput * option error) * R;
  DeleteConfiguredTable :
    DeleteConfiguredTableInput -> R -> (option DeleteConfiguredTableOutput * option error) * R
}.
Arguments CreateConfiguredTable {R} _ _ _.
Arguments GetConfiguredTable {R} _ _ _.
Arguments UpdateConfiguredTable {R} _ _ _.
Arguments DeleteConfiguredTable {R} _ _ _.

(** ** The schema, lines 569-624 *)

Inductive ValueType : Type := TypeString | TypeSet | TypeList | TypeMap.

Record attribute := {
  Type_ : ValueType;
  Required : bool;
  Optional : bool;
  Computed : bool;
  ForceNew : bool;
  MinItems : nat;      (* 0 when the schema does not declare it *)
  MaxItems : nat       (* 0 when the schema does not declare it *)
}.

Definition Schema : list (string * attribute) :=
  [ ("allowed_columns",
      {| Type_ := TypeSet; Required := true; Optional := false; Computed := false;
         ForceNew := true; MinItems := 1; MaxItems := 225 |});
    ("analysis_method",
      {| Type_ := TypeString; Required := true; Optional := false; Computed := false;
         ForceNew := false; MinItems := 0; MaxItems := 0 |});
    (names_AttrARN,
      {| Type_ := TypeString; Required := false; Optional := false; Computed := true;
         ForceNew := false; MinItems := 0; MaxItems := 0 |});
    ("create_time",
      {| Type_ := TypeString; Required := false; Optional := false; Computed := true;
         ForceNew := false; MinItems := 0; MaxItems := 0 |});
    (names_AttrDescription,
      {| Type_ := TypeString; Required := false; Optional := true; Computed := false;
         ForceNew := false; MinItems := 0; MaxItems := 0 |});
    (names_AttrName,
      {| Type_ := TypeString; Required := true; Optional := false; Computed := false;
         ForceNew := false; MinItems := 0; MaxItems := 0 |});
    ("table_reference",
      {| Type_ := TypeList; Required := true; Optional := false; Computed := false;
         ForceNew := true; MinItems := 0; MaxItems := 1 |});
    (names_AttrTags,
      {| Type_ := TypeMap; Required := false; Optional := true; Computed := false;
         ForceNew := false; MinItems := 0; MaxItems := 0 |});
    (names_AttrTagsAll,
      {| Type_ := TypeMap; Required := false; Optional := true; Computed := true;
         ForceNew := false; MinItems := 0; MaxItems := 0 |});
    ("update_time",
      {| Type_ := TypeString; Required := false; Optional := false; Computed := true;
         ForceNew := false; MinItems := 0; MaxItems := 0 |}) ].

Definition schema_lookup (key : string) : option attribute :=
  snd <$> List.find (fun ka => bool_decide (fst ka = key)) Schema.

Definition schema_keys : list string := map fst Schema.

(** ** [schema.ResourceData]

    Go values of type [interface{}] as they occur here: a primitive, and
    the elements of a list, which are blocks ([map[string]interface{}]) or
    primitives. *)

Inductive any : Type :=
| AString (s : string)
| AStringPtr (p : option string)
| AInt (n : Z)
| ABool (b : bool)
| ANil.

#[global] Instance any_eq_dec : EqDecision any.
Proof. solve_decision. Defined.

Inductive elem : Type :=
| EMap (m : gmap string any)
| EAny (a : any).

#[global] Instance elem_eq_dec : EqDecision elem.
Proof. solve_decision. Defined.

(** The value of an attribute, by the type of its schema. *)
Inductive value : Type :=
| VString (s : string)
| VSet (xs : gset string)
| VList (xs : list elem)
| VMap (m : gmap string string).

#[global] Instance value_eq_dec : EqDecision value.
Proof. solve_decision. Defined.

Definition zero_value (t : ValueType) : value :=
  match t with
  | TypeString => VString ""
  | TypeSet => VSet ∅
  | TypeList => VList []
  | TypeMap => VMap ∅
  end.

(** The resource data: the identifier, whether the resource is being
    created, the attributes of the prior state, the attributes planned
    (the state with the diff applied), and the attributes written by
    [d.Set] since. *)
Record ResourceData := {
  Id : string;
  IsNewResource : bool;
  prior : gmap string value;
  planned : gmap string value;
  written : gmap string value
}.

Definition SetId (id : string) (d : ResourceData) : ResourceData :=
  {| Id := id; IsNewResource := IsNewResource d; prior := prior d;
     planned := planned d; written := written d |}.

Definition zero_of (key : string) : value :=
  match schema_lookup key with
  | Some a => zero_value (Type_ a)
  | None => VString ""
  end.

Definition read_level (m : gmap string value) (key : string) : value :=
  match m !! key with Some v => v | None => zero_of key end.

(** [d.Get(key)]: the value written, else the value planned, else the zero
    value of the attribute's type. *)
Definition Get (key : string) (d : ResourceData) : value :=
  match written d !! key with
  | Some v => v
  | None => read_level (planned d) key
  end.

(** [d.GetOk(key)]: the value, and whether it is set to a non-zero value. *)
Definition GetOk (key : string) (d : ResourceData) : value * bool :=
  let v := Get key d in (v, negb (bool_decide (v = zero_of key))).

(** [d.HasChange(key)]: the prior and the planned value differ. *)
Definition HasChange (key : string) (d : ResourceData) : bool :=
  negb (bool_decide (read_level (prior d) key = read_level (planned d) key)).

Definition HasChanges (keys : list string) (d : ResourceData) : bool :=
  existsb (fun k => HasChange k d) keys.

(** [d.HasChangesExcept(keys...)]: some attribute outside [keys] has a
    change. *)
Definition HasChangesExcept (keys : list string) (d : ResourceData) : bool :=
  existsb (fun k => negb (bool_decide (k ∈ keys)) && HasChange k d) schema_keys.

(** The arguments [d.Set] is called with in this resource. *)
Inductive set_arg : Type :=
| SetStringPtr (p : option string)
| SetStrings (xs : list string)
| SetAnalysisMethod (m : AnalysisMethod)
| SetTimePtr (p : option Time)
| SetList (xs : list elem).

Definition AnalysisMethod_string (m : AnalysisMethod) : string :=
  match m with AnalysisMethodDirectQuery => "DIRECT_QUERY" end.

Definition normalize_any (a : any) : any :=
  match a with
  | AStringPtr p => AString (aws_ToString p)
  | _ => a
  end.

Definition normalize_elem (e : elem) : elem :=
  match e with
  | EMap m => EMap (normalize_any <$> m)
  | EAny a => EAny (normalize_any a)
  end.

(** The value [d.Set] writes for an argument at an attribute of type [t]:
    a nil pointer writes the zero value, a pointer to a primitive its
    target; a pointer to a struct (a [*time.Time]) is not decoded into a
    string, and an argument of another kind than the attribute is
    refused. *)
Definition convert (t : ValueType) (a : set_arg) : option value :=
  match t, a with
  | TypeString, SetStringPtr p => Some (VString (aws_ToString p))
  | TypeString, SetAnalysisMethod m => Some (VString (AnalysisMethod_string m))
  | TypeString, SetTimePtr None => Some (VString "")
  | TypeSet, SetStrings xs => Some (VSet (list_to_set xs))
  | TypeList, SetList xs => Some (VList (normalize_elem <$> xs))
  | _, _ => None
  end.

Definition write (key : string) (v : value) (d : ResourceData) : ResourceData :=
  {| Id := Id d; IsNewResource := IsNewResource d; prior := prior d;
     planned := planned d; written := <[key := v]> (written d) |}.

(** [d.Set(key, value)]: the error, and the data after the call. *)
Definition Set_ (key : string) (a : set_arg) (d : ResourceData)
  : option error * ResourceData :=
  match schema_lookup key with
  | None => (Some (ErrorsNew "Invalid address to set"), d)
  | Some att =>
      match convert (Type_ att) a with
      | Some v => (None, write key v d)
      | None => (Some (ErrorsNew "value cannot be converted"), d)
      end
  end.

(** Type assertions on the result of [d.Get], to a string, to a schema
    set and to a list of interfaces: they panic on a value of another
    type. *)
Definition as_string (v : value) : outcome string :=
  match v with VString s => Done s | _ => Panic InterfaceConversion end.

Definition as_set (v : value) : outcome (gset string) :=
  match v with VSet xs => Done xs | _ => Panic InterfaceConversion end.

Definition as_list (v : value) : outcome (list elem) :=
  match v with VList xs => Done xs | _ => Panic InterfaceConversion end.

#[global] Instance outcome_ret : MRet outcome := fun _ a => Done a.
#[global] Instance outcome_bind : MBind outcome := fun _ _ k o =>
  match o with Done a => k a | Panic p => Panic p end.
#[global] Instance outcome_fmap : FMap outcome := fun _ _ f o =>
  match o with Done a => Done (f a) | Panic p => Panic p end.

(** ** Diagnostics of the Plugin SDK *)

Inductive ErrAction : Type :=
| ErrActionCreating | ErrActionReading | ErrActionUpdating | ErrActionDeleting.

(** The resource names used in messages; [ResNameCollaboration] is the
    constant of the sibling resource that line 658 passes. *)
Inductive ResName : Type :=
| ResNameConfiguredTable
| ResNameCollaboration.

Inductive Diag : Type :=
| DiagError (action : ErrAction) (resource : ResName) (id : string) (err : error)
| DiagErrorf (format : string) (err : error).

(** Modelled from the spec: [create.DiagError] of [internal/create] is not
    part of the sources; one error diagnostic "with resource type,
    operation, and identifier attached for diagnosis". *)
Definition create_DiagError (action : ErrAction) (resource : ResName) (id : string)
    (err : error) : list Diag :=
  [DiagError action resource id err].

(** Modelled from the spec: [flex.ExpandStringValueSet] of [internal/flex]
    is not part of the sources; the members of the set, by direct value
    copy. *)
Definition flex_ExpandStringValueSet (xs : gset string) : list string := elements xs.

(** ** Expanders and flatteners, lines 753-783 *)

Definition expandAnalysisMethod (analysisMethod : string) : AnalysisMethod * option error :=
  if bool_decide (analysisMethod = "DIRECT_QUERY")
  then (AnalysisMethodDirectQuery, None)
  else (AnalysisMethodDirectQuery,
        Some (ErrorsNew "Invalid analysis method. The only valid value is currently `DIRECT_QUERY`")).

(** [m[key].(string)]: a missing key yields the nil interface, on which
    the assertion panics like on a value of another type. *)
Definition index_string (m : gmap string any) (key : string) : outcome string :=
  match m !! key with
  | Some (AString s) => Done s
  | _ => Panic InterfaceConversion
  end.

Definition expandTableReference (data : list elem) : outcome TableReference :=
  match data with
  | [] => Panic IndexOutOfRange
  | e :: _ =>
      match e with
      | EMap tableReference =>
          database_name ← index_string tableReference "database_name";
          table_name ← index_string tableReference "table_name";
          Done (TableReferenceMemberGlue
                  {| DatabaseName := aws_String database_name;
                     TableName := aws_String table_name |})
      | EAny _ => Panic InterfaceConversion
      end
  end.

Definition flattenTableReference (tableReference : option TableReference) : list elem :=
  match tableReference with
  | Some (TableReferenceMemberGlue v) =>
      [EMap (<["database_name" := AStringPtr (DatabaseName v)]>
             (<["table_name" := AStringPtr (TableName v)]> ∅))]
  | _ => []
  end.

(** ** The resource functions *)

(** [findConfiguredTableByID], lines 736-751. *)
Definition findConfiguredTableByID {R} (conn : Client R) (id : string) (r : R)
  : (option GetConfiguredTableOutput * option error) * R :=
  let input := {| GetInput_ConfiguredTableIdentifier := aws_String id |} in
  let '((out, err), r) := GetConfiguredTable conn input r in
  match err with
  | Some e => ((None, Some e), r)
  | None =>
      match out with
      | None => ((None, Some EmptyResultError), r)
      | Some o =>
          match GetOutput_ConfiguredTable o with
          | None => ((None, Some EmptyResultError), r)
          | Some _ => ((Some o, None), r)
          end
      end
  end.

(** [resourceConfiguredTableRead], lines 665-693.  The errors of the
    first six [d.Set] calls are dropped, as in the source. *)
Definition resourceConfiguredTableRead {R} (conn : Client R) (d : ResourceData) (r : R)
  : outcome (list Diag * ResourceData) * R :=
  let '((out, err), r) := findConfiguredTableByID conn (Id d) r in
  if negb (IsNewResource d) && tfresource_NotFound err then
    (Done ([], SetId "" d), r)
  else
    match err with
    | Some e =>
        (Done (create_DiagError ErrActionReading ResNameConfiguredTable (Id d) e, d), r)
    | None =>
        match out ≫= GetOutput_ConfiguredTable with
        | None => (Panic NilPointerDereference, r)
        | Some configuredTable =>
            let d := snd (Set_ names_AttrARN (SetStringPtr (ConfiguredTable_Arn configuredTable)) d) in
            let d := snd (Set_ names_AttrName (SetStringPtr (ConfiguredTable_Name configuredTable)) d) in
            let d := snd (Set_ names_AttrDescription
                            (SetStringPtr (ConfiguredTable_Description configuredTable)) d) in
            let d := snd (Set_ "allowed_columns"
                            (SetStrings (ConfiguredTable_AllowedColumns configuredTable)) d) in
            let d := snd (Set_ "analysis_method"
                            (SetAnalysisMethod (ConfiguredTable_AnalysisMethod configuredTable)) d) in
            let d := snd (Set_ "create_time"
                            (SetTimePtr (ConfiguredTable_CreateTime configuredTable)) d) in
            match Set_ "table_reference"
                    (SetList (flattenTableReference
                                (ConfiguredTable_TableReference configuredTable))) d with
            | (Some e, d) => (Done ([DiagErrorf "setting table_reference: %s" e], d), r)
            | (None, d) => (Done ([], d), r)
            end
        end
    end.

(** The request of [resourceConfiguredTableCreate], lines 635-650: the
    input, or the error of [expandAnalysisMethod]; with the name for the
    messages. *)
Definition create_input (tagsIn : gmap string string) (d : ResourceData)
  : outcome (string * (CreateConfiguredTableInput + error)) :=
  name ← as_string (Get names_AttrName d);
  allowed_columns ← as_set (Get "allowed_columns" d);
  table_reference ← as_list (Get "table_reference" d);
  tableReference ← expandTableReference table_reference;
  analysis_method ← as_string (Get "analysis_method" d);
  let '(analysisMethod, err) := expandAnalysisMethod analysis_method in
  match err with
  | Some e => Done (name, inr e)
  | None =>
      let '(v, ok) := GetOk names_AttrDescription d in
      description ← (if ok then Some <$> as_string v else Done None);
      Done (name,
            inl {| CreateInput_AllowedColumns := flex_ExpandStringValueSet allowed_columns;
                   CreateInput_AnalysisMethod := analysisMethod;
                   CreateInput_Name := aws_String name;
                   CreateInput_TableReference := Some tableReference;
                   CreateInput_Description := description;
                   CreateInput_Tags := tagsIn |})
  end.

(** [resourceConfiguredTableCreate], lines 632-663; [tagsIn] is what
    [getTagsIn(ctx)] finds in the context. *)
Definition resourceConfiguredTableCreate {R} (conn : Client R) (tagsIn : gmap string string)
    (d : ResourceData) (r : R) : outcome (list Diag * ResourceData) * R :=
  match create_input tagsIn d with
  | Panic p => (Panic p, r)
  | Done (name, inr e) =>
      (Done (create_DiagError ErrActionCreating ResNameConfiguredTable name e, d), r)
  | Done (name, inl input) =>
      let '((out, err), r) := CreateConfiguredTable conn input r in
      match err with
      | Some e =>
          (Done (create_DiagError ErrActionCreating ResNameConfiguredTable name e, d), r)
      | None =>
          match out ≫= CreateOutput_ConfiguredTable with
          | None =>
              (Done (create_DiagError ErrActionCreating ResNameCollaboration name
                       (ErrorsNew "empty output"), d), r)
          | Some configuredTable =>
              let d := SetId (aws_ToString (ConfiguredTable_Id configuredTable)) d in
              resourceConfiguredTableRead conn d r
          end
      end
  end.

(** The request of [resourceConfiguredTableUpdate], lines 700-710. *)
Definition update_input (d : ResourceData) : outcome UpdateConfiguredTableInput :=
  description ← (if HasChanges [names_AttrDescription] d
                 then Some <$> as_string (Get names_AttrDescription d) else Done None);
  name ← (if HasChanges [names_AttrName] d
          then Some <$> as_string (Get names_AttrName d) else Done None);
  Done {| UpdateInput_ConfiguredTableIdentifier := aws_String (Id d);
          UpdateInput_Description := description;
          UpdateInput_Name := name |}.

(** [resourceConfiguredTableUpdate], lines 695-719. *)
Definition resourceConfiguredTableUpdate {R} (conn : Client R) (d : ResourceData) (r : R)
  : outcome (list Diag * ResourceData) * R :=
  let diags : list Diag := [] in
  let read_back (r : R) :=
    match resourceConfiguredTableRead conn d r with
    | (Done (ds, d), r) => (Done (diags ++ ds, d), r)
    | (Panic p, r) => (Panic p, r)
    end in
  if HasChangesExcept ["tags"; "tags_all"] d then
    match update_input d with
    | Panic p => (Panic p, r)
    | Done input =>
        let '((_, err), r) := UpdateConfiguredTable conn input r in
        match err with
        | Some e =>
            (Done (create_DiagError ErrActionUpdating ResNameConfiguredTable (Id d) e, d), r)
        | None => read_back r
        end
    end
  else read_back r.

(** [resourceConfiguredTableDelete], lines 721-734. *)
Definition resourceConfiguredTableDelete {R} (conn : Client R) (d : ResourceData) (r : R)
  : list Diag * R :=
  let input := {| DeleteInput_ConfiguredTableIdentifier := aws_String (Id d) |} in
  let '((_, err), r) := DeleteConfiguredTable conn input r in
  match err with
  | Some e => (create_DiagError ErrActionDeleting ResNameConfiguredTable (Id d) e, r)
  | None => ([], r)
  end.

(** The importer, lines 559-561: [schema.ImportStatePassthroughContext]
    returns the resource data it is given, which holds only the
    identifier to import. *)
Definition ImportStatePassthroughContext (id : string) : ResourceData :=
  {| Id := id; IsNewResource := false; prior := ∅; planned := ∅; written := ∅ |}.

(** ** Services to run the adapter against *)

(** The remote calls, as a service sees them. *)
Inductive call : Type :=
| CallCreateConfiguredTable (input : CreateConfiguredTableInput)
| CallGetConfiguredTable (input : GetConfiguredTableInput)
| CallUpdateConfiguredTable (input : UpdateConfiguredTableInput)
| CallDeleteConfiguredTable (input : DeleteConfiguredTableInput).

(** A client that records every call it passes on to [conn]. *)
Definition logged {R} (conn : Client R) : Client (R * list call) :=
  {| CreateConfiguredTable := fun input s =>
       let '(res, r) := CreateConfiguredTable conn input (fst s) in
       (res, (r, snd s ++ [CallCreateConfiguredTable input]));
     GetConfiguredTable := fun input s =>
       let '(res, r) := GetConfiguredTable conn input (fst s) in
       (res, (r, snd s ++ [CallGetConfiguredTable input]));
     UpdateConfiguredTable := fun input s =>
       let '(res, r) := UpdateConfiguredTable conn input (fst s) in
       (res, (r, snd s ++ [CallUpdateConfiguredTable input]));
     DeleteConfiguredTable := fun input s =>
       let '(res, r) := DeleteConfiguredTable conn input (fst s) in
       (res, (r, snd s ++ [CallDeleteConfiguredTable input])) |}.

Definition new_ConfiguredTable (input : CreateConfiguredTableInput) : ConfiguredTable :=
  let id := "ct-" +:+ aws_ToString (CreateInput_Name input) in
  {| ConfiguredTable_AllowedColumns := CreateInput_AllowedColumns input;
     ConfiguredTable_AnalysisMethod := CreateInput_AnalysisMethod input;
     ConfiguredTable_Arn := Some ("arn:aws:cleanrooms:us-east-1:123456789012:configuredtable/" +:+ id);
     ConfiguredTable_CreateTime := Some zero_Time;
     ConfiguredTable_Description := CreateInput_Description input;
     ConfiguredTable_Id := Some id;
     ConfiguredTable_Name := CreateInput_Name input;
     ConfiguredTable_TableReference := CreateInput_TableReference input;
     ConfiguredTable_UpdateTime := Some zero_Time |}.

Definition update_ConfiguredTable (input : UpdateConfiguredTableInput) (t : ConfiguredTable)
  : ConfiguredTable :=
  {| ConfiguredTable_AllowedColumns := ConfiguredTable_AllowedColumns t;
     ConfiguredTable_AnalysisMethod := ConfiguredTable_AnalysisMethod t;
     ConfiguredTable_Arn := ConfiguredTable_Arn t;
     ConfiguredTable_CreateTime := ConfiguredTable_CreateTime t;
     ConfiguredTable_Description :=
       match UpdateInput_Description input with
       | Some s => Some s
       | None => ConfiguredTable_Description t
       end;
     ConfiguredTable_Id := ConfiguredTable_Id t;
     ConfiguredTable_Name :=
       match UpdateInput_Name input with
       | Some s => Some s
       | None => ConfiguredTable_Name t
       end;
     ConfiguredTable_TableReference := ConfiguredTable_TableReference t;
     ConfiguredTable_UpdateTime := ConfiguredTable_UpdateTime t |}.

(** A service that keeps its configured tables in a map by identifier,
    and answers [ResourceNotFoundException] for an identifier it does not
    hold. *)
Definition memory_service : Client (gmap string ConfiguredTable) :=
  {| CreateConfiguredTable := fun input m =>
       let t := new_ConfiguredTable input in
       let id := aws_ToString (ConfiguredTable_Id t) in
       match m !! id with
       | Some _ => ((None, Some (APIError "ConflictException" id)), m)
       | None => ((Some {| CreateOutput_ConfiguredTable := Some t |}, None), <[id := t]> m)
       end;
     GetConfiguredTable := fun input m =>
       let id := aws_ToString (GetInput_ConfiguredTableIdentifier input) in
       match m !! id with
       | Some t => ((Some {| GetOutput_ConfiguredTable := Some t |}, None), m)
       | None => ((None, Some (ResourceNotFoundException id)), m)
       end;
     UpdateConfiguredTable := fun input m =>
       let id := aws_ToString (UpdateInput_ConfiguredTableIdentifier input) in
       match m !! id with
       | Some t =>
           let t := update_ConfiguredTable input t in
           ((Some {| UpdateOutput_ConfiguredTable := Some t |}, None), <[id := t]> m)
       | None => ((None, Some (ResourceNotFoundException id)), m)
       end;
     DeleteConfiguredTable := fun input m =>
       let id := aws_ToString (DeleteInput_ConfiguredTableIdentifier input) in
       match m !! id with
       | Some _ => ((Some Build_DeleteConfiguredTableOutput, None), delete id m)
       | None => ((None, Some (ResourceNotFoundException id)), m)
       end |}.

(** A service that answers [CreateConfiguredTable] with a fixed reply. *)
Definition replying_service
    (reply : option CreateConfiguredTableOutput * option error) : Client unit :=
  {| CreateConfiguredTable := fun _ u => (reply, u);
     GetConfiguredTable := fun _ u => ((None, Some (APIError "UnsupportedOperation" "")), u);
     UpdateConfiguredTable := fun _ u => ((None, Some (APIError "UnsupportedOperation" "")), u);
     DeleteConfiguredTable := fun _ u => ((None, Some (APIError "UnsupportedOperation" "")), u) |}.

End Cleanrooms.

(** * Concrete inputs *)

Definition tenant_plan (name : string) : Sesv2.resourceTenantModel :=
  {| Sesv2.Region := StringNull; Sesv2.ARN := StringUnknown;
     Sesv2.CreatedTimestamp := StringUnknown; Sesv2.ID := StringUnknown;
     Sesv2.SendingStatus := StringUnknown; Sesv2.Tags := MapNull;
     Sesv2.TagsAll := MapUnknown; Sesv2.TenantName := StringValue name |}.

Definition imported_tenant (id : string) : Sesv2.resourceTenantModel :=
  Sesv2.set_ID (StringValue id) Sesv2.null_model.

Definition new_year_2024 : Time :=
  {| year := 2024; month := 1; day := 1; hour := 0; minute := 0; second := 0;
     zone_offset := 0 |}.


Definition without_TenantId : Sesv2.CreateTenantOutput :=
  {| Sesv2.CreateTenantOutput_CreatedTimestamp := Some new_year_2024;
     Sesv2.CreateTenantOutput_SendingStatus := "ENABLED";
     Sesv2.CreateTenantOutput_Tags := [];
     Sesv2.CreateTenantOutput_TenantArn := Some "arn:...:tenant/id-1";
     Sesv2.CreateTenantOutput_TenantId := None;
     Sesv2.CreateTenantOutput_TenantName := Some "t1" |}.

Definition tenant_info (id : string) : Sesv2.TenantInfo :=
  {| Sesv2.TenantInfo_CreatedTimestamp := None;
     Sesv2.TenantInfo_TenantArn := None;
     Sesv2.TenantInfo_TenantId := Some id;
     Sesv2.TenantInfo_TenantName := None |}.

Definition sweep_handle (id : string) : Sesv2.Sweepable :=
  {| Sesv2.sweep_resource := "Tenant"; Sesv2.sweep_attributes := [("id", id)] |}.

Definition glue_block (db tb : string) : Cleanrooms.elem :=
  Cleanrooms.EMap (<["database_name" := Cleanrooms.AString db]>
                   (<["table_name" := Cleanrooms.AString tb]> ∅)).

Definition table_attrs (name : string) : gmap string Cleanrooms.value :=
  <["name" := Cleanrooms.VString name]>
  (<["allowed_columns" := Cleanrooms.VSet {["c1"]}]>
  (<["analysis_method" := Cleanrooms.VString "DIRECT_QUERY"]>
  (<["table_reference" := Cleanrooms.VList [glue_block "db" "tb"]]> ∅))).

Definition new_table : Cleanrooms.ResourceData :=
  {| Cleanrooms.Id := ""; Cleanrooms.IsNewResource := true; Cleanrooms.prior := ∅;
     Cleanrooms.planned := table_attrs "n1"; Cleanrooms.written := ∅ |}.

Definition stored_table (planned : gmap string Cleanrooms.value) : Cleanrooms.ResourceData :=
  {| Cleanrooms.Id := "ct-n1"; Cleanrooms.IsNewResource := false;
     Cleanrooms.prior := table_attrs "n1"; Cleanrooms.planned := planned;
     Cleanrooms.written := ∅ |}.

(** A plan that differs from the prior state in [tags] and [tags_all]
    only. *)
Definition tags_only : Cleanrooms.ResourceData :=
  stored_table (<["tags" := Cleanrooms.VMap {["k" := "v"]}]>
                (<["tags_all" := Cleanrooms.VMap {["k" := "v"]}]> (table_attrs "n1"))).

(** A plan that renames the table and also differs in the immutable
    [table_reference] and [allowed_columns]. *)
Definition renamed : Cleanrooms.ResourceData :=
  stored_table (<["name" := Cleanrooms.VString "n2"]>
                (<["table_reference" := Cleanrooms.VList [glue_block "db2" "tb"]]>
                (<["allowed_columns" := Cleanrooms.VSet {["c2"]}]> (table_attrs "n1")))).

Definition remote_table : Cleanrooms.ConfiguredTable :=
  {| Cleanrooms.ConfiguredTable_AllowedColumns := ["c1"];
     Cleanrooms.ConfiguredTable_AnalysisMethod := Cleanrooms.AnalysisMethodDirectQuery;
     Cleanrooms.ConfiguredTable_Arn := Some "arn:aws:cleanrooms:us-east-1:123456789012:configuredtable/ct-n1";
     Cleanrooms.ConfiguredTable_CreateTime := Some new_year_2024;
     Cleanrooms.ConfiguredTable_Description := None;
     Cleanrooms.ConfiguredTable_Id := Some "ct-n1";
     Cleanrooms.ConfiguredTable_Name := Some "n1";
     Cleanrooms.ConfiguredTable_TableReference :=
       Some (Cleanrooms.TableReferenceMemberGlue
               {| Cleanrooms.DatabaseName := Some "db"; Cleanrooms.TableName := Some "tb" |});
     Cleanrooms.ConfiguredTable_UpdateTime := Some new_year_2024 |}.

(** The schema attributes that an update request carries: [Description]
    is filled from [description] and [Name] from [name] (lines 704-710);
    [ConfiguredTableIdentifier] is the resource identifier, not an
    attribute. *)
Definition payload_fields (input : Cleanrooms.UpdateConfiguredTableInput) : list string :=
  match Cleanrooms.UpdateInput_Description input with
  | Some _ => ["description"]
  | None => []
  end ++
  match Cleanrooms.UpdateInput_Name input with
  | Some _ => ["name"]
  | None => []
  end.

Definition is_ForceNew (key : string) : bool :=
  match Cleanrooms.schema_lookup key with
  | Some a => Cleanrooms.ForceNew a
  | None => false
  end.

(** * Acceptance-test helpers ([internal/service/sesv2/tenant_test.go]) *)

Module Sesv2Test.

(** The part of [terraform.State] that the checks read: a resource has a
    type and a primary instance with its attributes. *)
Record InstanceState := { Attributes : gmap string string }.

Record ResourceState := {
  Type_ : string;
  Primary : option InstanceState
}.

Inductive CheckAction : Type :=
| ErrActionCheckingDestroyed
| ErrActionCheckingExistence
| ErrActionCheckingNotRecreated.

(** Modelled from the spec: [create.Error] of [internal/create] is not
    part of the sources; an error "with resource type, operation, and
    identifier attached". *)
Inductive check_error : Type :=
| create_Error (action : CheckAction) (id : string) (err : error).

(** [m[key]] on a map of strings: the empty string for a missing key. *)
Definition index (m : gmap string string) (key : string) : string :=
  match m !! key with Some v => v | None => "" end.

(** [testAccCheckTenantDestroy], lines 147-171 of the test file.
    [resources] are the values of [s.RootModule().Resources] in the order
    in which the [range] statement of one run visits them (Go leaves the
    order of a map open). *)
Fixpoint testAccCheckTenantDestroy {R} (conn : Sesv2.Client R)
    (resources : list ResourceState) (r : R) : outcome (option check_error) * R :=
  match resources with
  | [] => (Done None, r)
  | rs :: rest =>
      if negb (bool_decide (Type_ rs = "aws_sesv2_tenant"))
      then testAccCheckTenantDestroy conn rest r
      else
        match Primary rs with
        | None => (Panic NilPointerDereference, r)
        | Some primary =>
            let tenantName := index (Attributes primary) "tenant_name" in
            let '((_, err), r) := Sesv2.FindTenantByName conn tenantName r in
            if tfresource_NotFound err then (Done None, r)
            else
              match err with
              | Some e =>
                  (Done (Some (create_Error ErrActionCheckingDestroyed tenantName e)), r)
              | None =>
                  (Done (Some (create_Error ErrActionCheckingDestroyed tenantName
                                 (ErrorsNew "not destroyed"))), r)
              end
        end
  end.

(** [testAccCheckTenantExists], lines 173-194 of the test file. *)
Definition testAccCheckTenantExists {R} (conn : Sesv2.Client R) (name : string)
    (resources : gmap string ResourceState) (r : R) : outcome (option check_error) * R :=
  match resources !! name with
  | None =>
      (Done (Some (create_Error ErrActionCheckingExistence name (ErrorsNew "not found"))), r)
  | Some rs =>
      match Primary rs with
      | None => (Panic NilPointerDereference, r)
      | Some primary =>
          let missing :=
            create_Error ErrActionCheckingExistence name
              (ErrorsNew "tenant_name attribute not found or empty") in
          match Attributes primary !! "tenant_name" with
          | None => (Done (Some missing), r)
          | Some tenantName =>
              if bool_decide (tenantName = "") then (Done (Some missing), r)
              else
                let '((_, err), r) := Sesv2.FindTenantByName conn tenantName r in
                match err with
                | Some e =>
                    (Done (Some (create_Error ErrActionCheckingExistence tenantName e)), r)
                | None => (Done None, r)
                end
          end
      end
  end.

(** [testAccCheckTenantNotRecreated], lines 211-221 of the test file:
    both identifiers are read from [before]. *)
Definition testAccCheckTenantNotRecreated (before after : option Sesv2.GetTenantOutput)
  : outcome (option check_error) :=
  match before ≫= Sesv2.GetTenantOutput_Tenant with
  | None => Panic NilPointerDereference
  | Some tenant =>
      let beforeID := aws_ToString (Sesv2.Tenant_TenantId tenant) in
      let afterID := aws_ToString (Sesv2.Tenant_TenantId tenant) in
      if negb (bool_decide (beforeID = afterID))
      then Done (Some (create_Error ErrActionCheckingNotRecreated beforeID
                         (ErrorsNew "recreated")))
      else Done None
  end.

End Sesv2Test.

(** * Typing of the resource data

    The SDK hands the resource functions data whose attributes have the
    type that the schema gives them. *)

Definition type_of (v : Cleanrooms.value) : Cleanrooms.ValueType :=
  match v with
  | Cleanrooms.VString _ => Cleanrooms.TypeString
  | Cleanrooms.VSet _ => Cleanrooms.TypeSet
  | Cleanrooms.VList _ => Cleanrooms.TypeList
  | Cleanrooms.VMap _ => Cleanrooms.TypeMap
  end.

Definition typed_level (m : gmap string Cleanrooms.value) : Prop :=
  ∀ k v a, m !! k = Some v → Cleanrooms.schema_lookup k = Some a →
           type_of v = Cleanrooms.Type_ a.

Definition well_typed (d : Cleanrooms.ResourceData) : Prop :=
  typed_level (Cleanrooms.prior d)
  ∧ typed_level (Cleanrooms.planned d)
  ∧ typed_level (Cleanrooms.written d).

(** The attributes that [resourceConfiguredTableRead] sets, lines
    681-688. *)
Definition read_keys : list string :=
  [names_AttrARN; names_AttrName; names_AttrDescription; "allowed_columns";
   "analysis_method"; "create_time"; "table_reference"].

(** A stored tenant resource of the Terraform state. *)
Definition tenant_resource (name : string) : Sesv2Test.ResourceState :=
  {| Sesv2Test.Type_ := "aws_sesv2_tenant";
     Sesv2Test.Primary :=
       Some {| Sesv2Test.Attributes := {[ "tenant_name" := name ]} |} |}.

(** A service whose list pages always carry a token. *)
Definition endless_service : Sesv2.Client unit :=
  {| Sesv2.CreateTenant := fun _ u => (Sesv2.not_scripted, u);
     Sesv2.GetTenant := fun _ u => (Sesv2.not_scripted, u);
     Sesv2.DeleteTenant := fun _ u => (Sesv2.not_scripted, u);
     Sesv2.ListTenants := fun _ u =>
       ((Some {| Sesv2.ListTenantsOutput_NextToken := Some "next";
                 Sesv2.ListTenantsOutput_Tenants := [] |}, None), u) |}.

(** * Properties of the Tenant resource *)

Section Tenant.

Context {R : Type} (conn : Sesv2.Client R).

(** The finder returns no tenant whenever it returns an error. *)
Lemma FindTenantByName_error_nil (name : string) (r : R) :
  ∀ out e r', Sesv2.FindTenantByName conn name r = ((out, Some e), r') → out = None.
Proof.
  intros out e r'. unfold Sesv2.FindTenantByName.
  destruct (Sesv2.GetTenant conn _ r) as [[o err] r1].
  destruct err as [e'|].
  - destruct (errs_IsA_NotFoundException e'); congruence.
  - destruct o as [o|]; [destruct (Sesv2.GetTenantOutput_Tenant o)|]; congruence.
Qed.

(** A remote [NotFoundException] reaches the caller of the finder as the
    provider's not-found error. *)
Lemma FindTenantByName_NotFound (name msg : string) (r r' : R) out :
  Sesv2.GetTenant conn {| Sesv2.GetTenantInput_TenantName := Some name |} r
    = ((out, Some (NotFoundException msg)), r') →
  Sesv2.FindTenantByName conn name r
    = ((None, Some (SmartErr (RetryNotFoundError (NotFoundException msg)))), r')
  ∧ tfresource_NotFound (Some (SmartErr (RetryNotFoundError (NotFoundException msg)))) = true.
Proof.
  intros H. unfold Sesv2.FindTenantByName, aws_String. rewrite H. split; reflexivity.
Qed.

(** Whenever the get call fails, with any error, [Read] panics at the
    debug print of line 167: the not-found branch of line 169 is never
    reached with a not-found error. *)
Lemma Read_panics_on_error (state : Sesv2.resourceTenantModel) (r r' : R) out e :
  Sesv2.GetTenant conn
    {| Sesv2.GetTenantInput_TenantName := Some (ValueString (Sesv2.TenantName state)) |} r
    = ((out, Some e), r') →
  Sesv2.Read conn state r = (Panic NilPointerDereference, r').
Proof.
  intros H. unfold Sesv2.Read, Sesv2.FindTenantByName, aws_String. rewrite H.
  destruct (errs_IsA_NotFoundException e); reflexivity.
Qed.

(** [Delete] reports nothing when the delete call answers
    [NotFoundException]. *)
Lemma Delete_NotFound_is_success (state : Sesv2.resourceTenantModel) (r r' : R) out msg :
  Sesv2.DeleteTenant conn
    {| Sesv2.DeleteTenantInput_TenantName := ValueStringPointer (Sesv2.TenantName state) |} r
    = ((out, Some (NotFoundException msg)), r') →
  Sesv2.Diagnostics (fst (Sesv2.Delete conn state r)) = [].
Proof.
  intros H. unfold Sesv2.Delete. rewrite H. reflexivity.
Qed.

(** After an import, [Read] asks the service for the tenant with the
    empty name, whatever the imported identifier is. *)
Lemma Read_after_import_lookup (id : string) :
  ValueString (Sesv2.TenantName (imported_tenant id)) = "".
Proof. reflexivity. Qed.

End Tenant.

(** Deleting a tenant twice from the in-memory service: the second call
    meets [NotFoundException] and reports nothing. *)
Lemma Tenant_Delete_twice (name : string) (m : gmap string Sesv2.Tenant) :
  let '(resp1, m1) := Sesv2.Delete Sesv2.memory_service (tenant_plan name) m in
  let '(resp2, m2) := Sesv2.Delete Sesv2.memory_service (tenant_plan name) m1 in
  Sesv2.Diagnostics resp1 = [] ∧ Sesv2.Diagnostics resp2 = [] ∧ m2 !! name = None.
Proof.
  unfold Sesv2.Delete; simpl.
  destruct (m !! name) eqn:E; simpl.
  - rewrite lookup_delete_eq. simpl. rewrite lookup_delete_eq. done.
  - rewrite E. simpl. done.
Qed.

(** C1.  Reading a tenant that the service does not hold: [Read] does not
    signal not-found, it panics at line 167 before the test of line 169;
    and the read of a configured table that the service does not hold
    reports a reading error and keeps the record, because
    [findConfiguredTableByID] passes the remote error on unwrapped. *)
Theorem Read_missing_resource :
  fst (Sesv2.Read Sesv2.memory_service (tenant_plan "ghost") ∅)
    = Panic NilPointerDereference
  ∧ fst (Cleanrooms.resourceConfiguredTableRead Cleanrooms.memory_service
           (stored_table (table_attrs "n1")) ∅)
    = Done ([Cleanrooms.DiagError Cleanrooms.ErrActionReading
               Cleanrooms.ResNameConfiguredTable "ct-n1"
               (ResourceNotFoundException "ct-n1")],
            stored_table (table_attrs "n1")).
Proof. split; reflexivity. Qed.

(** C3.  Importing a tenant that exists, by its name or by its
    identifier, and reading it: only [id] is set, [Read] looks the empty
    tenant name up, the service does not find it, and [Read] panics
    instead of finding the tenant; with the tenant name in the state, as
    after a create, the same read finds it. *)
Theorem Tenant_import_then_Read :
  let m : gmap string Sesv2.Tenant := {[ "t1" := Sesv2.new_Tenant "t1" ]} in
  Sesv2.State (Sesv2.ImportState "t1") = Some (imported_tenant "t1")
  ∧ fst (Sesv2.FindTenantByName Sesv2.memory_service
           (ValueString (Sesv2.TenantName (imported_tenant "t1"))) m)
      = (None, Some (SmartErr (RetryNotFoundError (NotFoundException ""))))
  ∧ fst (Sesv2.Read Sesv2.memory_service (imported_tenant "t1") m)
      = Panic NilPointerDereference
  ∧ fst (Sesv2.Read Sesv2.memory_service (imported_tenant "id-t1") m)
      = Panic NilPointerDereference
  ∧ is_Done (fst (Sesv2.Read Sesv2.memory_service (tenant_plan "t1") m)) = true.
Proof. repeat split; reflexivity. Qed.

(** ** The sweeper *)

Lemma sweep_loop_eq {R} (fuel : nat) (conn : Sesv2.Client R) pages acc (r : R) :
  Sesv2.sweep_loop fuel conn pages acc r =
  if negb (Sesv2.HasMorePages pages) then Some (Done (acc, None), r)
  else
    match fuel with
    | O => None
    | S fuel =>
        match Sesv2.NextPage conn pages r with
        | (Panic p, r) => Some (Panic p, r)
        | (Done ((_, Some e), _), r) => Some (Done ([], Some (SmartErr e)), r)
        | (Done ((None, None), _), r) => Some (Panic NilPointerDereference, r)
        | (Done ((Some page, None), pages), r) =>
            Sesv2.sweep_loop fuel conn pages
              (acc ++ map Sesv2.NewSweepResource (Sesv2.ListTenantsOutput_Tenants page)) r
        end
    end.
Proof. destruct fuel; reflexivity. Qed.

Lemma handles_length (ps : list (list Sesv2.TenantInfo)) :
  length (map Sesv2.NewSweepResource (concat ps)) = sum_list_with length ps.
Proof.
  rewrite length_map. induction ps as [|p ps IH]; simpl; [done|].
  rewrite length_app, IH. done.
Qed.

(** With pages left to play and a paginator that asks for more, the loop
    takes every page and stops after the last one. *)
Lemma sweep_loop_pages (ps : list (list Sesv2.TenantInfo)) :
  ∀ p acc fuel,
    ps ≠ [] → Sesv2.HasMorePages p = true → (length ps ≤ fuel)%nat →
    Sesv2.sweep_loop fuel Sesv2.paged_service p acc (inl <$> ps)
    = Some (Done (acc ++ map Sesv2.NewSweepResource (concat ps), None), []).
Proof.
  induction ps as [|t ps IH]; intros p acc fuel Hne Hmore Hfuel; [done|].
  destruct fuel as [|fuel]; [simpl in Hfuel; lia|].
  rewrite sweep_loop_eq, Hmore. unfold Sesv2.NextPage. rewrite Hmore. simpl.
  destruct ps as [|t' ps'].
  - simpl. rewrite sweep_loop_eq. simpl. rewrite app_nil_r. reflexivity.
  - rewrite fmap_cons. rewrite <- fmap_cons.
    rewrite IH; [|done|reflexivity|simpl in *; lia].
    rewrite map_app, app_assoc. reflexivity.
Qed.

(** A page that fails ends the loop with the error and no handles,
    whatever was collected before. *)
Lemma sweep_loop_failure (good : list (list Sesv2.TenantInfo)) e rest :
  ∀ p acc fuel,
    Sesv2.HasMorePages p = true → (length good < fuel)%nat →
    Sesv2.sweep_loop fuel Sesv2.paged_service p acc ((inl <$> good) ++ inr e :: rest)
    = Some (Done ([], Some (SmartErr e)), rest).
Proof.
  induction good as [|t good IH]; intros p acc fuel Hmore Hfuel;
    (destruct fuel as [|fuel]; [simpl in Hfuel; lia|]);
    rewrite sweep_loop_eq, Hmore; unfold Sesv2.NextPage; rewrite Hmore; simpl.
  - reflexivity.
  - apply IH; [|simpl in Hfuel; lia]. destruct good; reflexivity.
Qed.

(** C7.  Against a service that plays [N] pages holding [K] tenants in
    all, the sweeper returns [K] handles, one for each listed tenant in
    order, each keyed by [id] with the tenant's identifier, and no error;
    when the page after some good pages fails, it returns the error and no
    handles. *)
Theorem sweepTenants_pages :
  (∀ (ps : list (list Sesv2.TenantInfo)) (fuel : nat),
      (length ps < fuel)%nat →
      ∃ handles,
        Sesv2.sweepTenants fuel Sesv2.paged_service (inl <$> ps)
          = Some (Done (handles, None), [])
        ∧ handles = map (λ v, {| Sesv2.sweep_resource := "Tenant";
                                 Sesv2.sweep_attributes :=
                                   [("id", aws_ToString (Sesv2.TenantInfo_TenantId v))] |})
                        (concat ps)
        ∧ length handles = sum_list_with length ps)
  ∧ (∀ (good : list (list Sesv2.TenantInfo)) (e : error)
       (rest : list (list Sesv2.TenantInfo + error)) (fuel : nat),
      (length good < fuel)%nat →
      Sesv2.sweepTenants fuel Sesv2.paged_service ((inl <$> good) ++ inr e :: rest)
        = Some (Done ([], Some (SmartErr e)), rest)).
Proof.
  split.
  - intros ps fuel Hfuel. eexists. split; [|split; [reflexivity|apply handles_length]].
    unfold Sesv2.sweepTenants. destruct ps as [|t ps].
    + destruct fuel as [|fuel]; [simpl in Hfuel; lia|].
      rewrite sweep_loop_eq. simpl. rewrite sweep_loop_eq. reflexivity.
    + rewrite sweep_loop_pages; [reflexivity|done|reflexivity|lia].
  - intros good e rest fuel Hfuel. unfold Sesv2.sweepTenants.
    apply sweep_loop_failure; [reflexivity|done].
Qed.

(** Two pages of two and one tenants give three handles; a failure of the
    second page after a first page of two tenants gives none. *)
Lemma sweepTenants_pages_witness :
  (∃ handles,
      Sesv2.sweepTenants 3 Sesv2.paged_service
        [inl [tenant_info "a"; tenant_info "b"]; inl [tenant_info "c"]]
        = Some (Done (handles, None), [])
      ∧ handles = [sweep_handle "a"; sweep_handle "b"; sweep_handle "c"]
      ∧ length handles = 3)
  ∧ Sesv2.sweepTenants 2 Sesv2.paged_service
      [inl [tenant_info "a"; tenant_info "b"]; inr (APIError "Throttling" "")]
      = Some (Done ([], Some (SmartErr (APIError "Throttling" ""))), []).
Proof.
  split.
  - apply (proj1 sweepTenants_pages [[tenant_info "a"; tenant_info "b"]; [tenant_info "c"]] 3).
    simpl. lia.
  - apply (proj2 sweepTenants_pages [[tenant_info "a"; tenant_info "b"]]
             (APIError "Throttling" "") [] 2).
    simpl. lia.
Defined.

(** ** Create *)

(** C8.  When the create call reports success with a nil output, or with
    an output that lacks the identifier ([TenantId] for the tenant,
    [ConfiguredTable] for the configured table), the create function
    reports the error [empty output] and stores nothing: the tenant's
    response has no state, and the configured table's data is returned as
    it came, without an identifier set. *)
Theorem Create_empty_output :
  (∀ (R : Type) (conn : Sesv2.Client R) (plan : Sesv2.resourceTenantModel) (r r' : R)
     (out : option Sesv2.CreateTenantOutput),
      Sesv2.CreateTenant conn (snd (Sesv2.flex_Expand plan)) r = ((out, None), r') →
      out ≫= Sesv2.CreateTenantOutput_TenantId = None →
      Sesv2.Create conn plan r
        = ({| Sesv2.Diagnostics :=
                [ErrorDiagnostic (ErrorsNew "empty output") (Sesv2.TenantName plan)];
              Sesv2.State := None |}, r'))
  ∧ (∀ (R : Type) (conn : Cleanrooms.Client R) (tagsIn : gmap string string)
       (d : Cleanrooms.ResourceData) (r r' : R) (name : string)
       (input : Cleanrooms.CreateConfiguredTableInput)
       (out : option Cleanrooms.CreateConfiguredTableOutput),
      Cleanrooms.create_input tagsIn d = Done (name, inl input) →
      Cleanrooms.CreateConfiguredTable conn input r = ((out, None), r') →
      out ≫= Cleanrooms.CreateOutput_ConfiguredTable = None →
      Cleanrooms.resourceConfiguredTableCreate conn tagsIn d r
        = (Done ([Cleanrooms.DiagError Cleanrooms.ErrActionCreating
                    Cleanrooms.ResNameCollaboration name (ErrorsNew "empty output")],
                 d), r')).
Proof.
  split.
  - intros R conn plan r r' out Hcall Hout. unfold Sesv2.Create.
    simpl in *. rewrite Hcall.
    destruct out as [o|]; [|reflexivity]. simpl in Hout. rewrite Hout. reflexivity.
  - intros R conn tagsIn d r r' name input out Hin Hcall Hout.
    unfold Cleanrooms.resourceConfiguredTableCreate. rewrite Hin, Hcall, Hout.
    reflexivity.
Qed.

(** The four cases on replying services: a nil output and an output
    without identifier for the tenant, a nil output and an output without
    configured table for the configured table. *)
Lemma Create_empty_output_witness :
  (Sesv2.Create (Sesv2.replying_service (None, None)) (tenant_plan "t1") tt
     = ({| Sesv2.Diagnostics := [ErrorDiagnostic (ErrorsNew "empty output") (StringValue "t1")];
           Sesv2.State := None |}, tt)
   ∧ Sesv2.Create (Sesv2.replying_service (Some without_TenantId, None)) (tenant_plan "t1") tt
     = ({| Sesv2.Diagnostics := [ErrorDiagnostic (ErrorsNew "empty output") (StringValue "t1")];
           Sesv2.State := None |}, tt))
  ∧ (Cleanrooms.resourceConfiguredTableCreate
       (Cleanrooms.replying_service (None, None)) ∅ new_table tt
     = (Done ([Cleanrooms.DiagError Cleanrooms.ErrActionCreating
                 Cleanrooms.ResNameCollaboration "n1" (ErrorsNew "empty output")],
              new_table), tt)
     ∧ Cleanrooms.resourceConfiguredTableCreate
       (Cleanrooms.replying_service
          (Some {| Cleanrooms.CreateOutput_ConfiguredTable := None |}, None)) ∅ new_table tt
     = (Done ([Cleanrooms.DiagError Cleanrooms.ErrActionCreating
                 Cleanrooms.ResNameCollaboration "n1" (ErrorsNew "empty output")],
              new_table), tt)).
Proof.
  split; split.
  - apply (proj1 Create_empty_output unit _ (tenant_plan "t1") tt tt None); reflexivity.
  - apply (proj1 Create_empty_output unit _ (tenant_plan "t1") tt tt (Some without_TenantId));
      reflexivity.
  - eapply (proj2 Create_empty_output unit _ ∅ new_table tt tt "n1" _ None);
      [vm_compute; reflexivity|reflexivity|reflexivity].
  - eapply (proj2 Create_empty_output unit _ ∅ new_table tt tt "n1" _
              (Some {| Cleanrooms.CreateOutput_ConfiguredTable := None |}));
      [vm_compute; reflexivity|reflexivity|reflexivity].
Defined.



(** * Properties of the Configured Table resource *)

Section ConfiguredTable.

Context {R : Type} (conn : Cleanrooms.Client R).

(** Through a recording client, the finder adds one get call, for the
    identifier it was asked for. *)
Lemma findConfiguredTableByID_logged (id : string) (r : R) (log : list Cleanrooms.call) :
  Cleanrooms.findConfiguredTableByID (Cleanrooms.logged conn) id (r, log)
  = let '(res, r') := Cleanrooms.findConfiguredTableByID conn id r in
    (res, (r', log ++ [Cleanrooms.CallGetConfiguredTable
                         {| Cleanrooms.GetInput_ConfiguredTableIdentifier := Some id |}])).
Proof.
  unfold Cleanrooms.findConfiguredTableByID, Cleanrooms.logged, aws_String. simpl.
  destruct (Cleanrooms.GetConfiguredTable conn _ r) as [[out err] r1].
  destruct err; [reflexivity|].
  destruct out as [o|]; [|reflexivity].
  destruct (Cleanrooms.GetOutput_ConfiguredTable o); reflexivity.
Qed.

(** The read makes no other call than the finder's. *)
Lemma Read_state {T : Type} (c : Cleanrooms.Client T) (d : Cleanrooms.ResourceData) (s : T) :
  snd (Cleanrooms.resourceConfiguredTableRead c d s)
  = snd (Cleanrooms.findConfiguredTableByID c (Cleanrooms.Id d) s).
Proof.
  unfold Cleanrooms.resourceConfiguredTableRead.
  destruct (Cleanrooms.findConfiguredTableByID c _ s) as [[out err] s1]. simpl.
  destruct (negb _ && _); [reflexivity|].
  destruct err; [reflexivity|].
  destruct (out ≫= _); reflexivity.
Qed.

Lemma Read_logged (d : Cleanrooms.ResourceData) (r : R) (log : list Cleanrooms.call) :
  snd (snd (Cleanrooms.resourceConfiguredTableRead (Cleanrooms.logged conn) d (r, log)))
  = log ++ [Cleanrooms.CallGetConfiguredTable
              {| Cleanrooms.GetInput_ConfiguredTableIdentifier := Some (Cleanrooms.Id d) |}].
Proof.
  rewrite Read_state, findConfiguredTableByID_logged.
  destruct (Cleanrooms.findConfiguredTableByID conn _ r). reflexivity.
Qed.

(** [d.Set] and [d.SetId] leave the other attributes as they are. *)
Lemma Get_Set_other (key k : string) (a : Cleanrooms.set_arg) (d : Cleanrooms.ResourceData) :
  key ≠ k →
  Cleanrooms.Get k (snd (Cleanrooms.Set_ key a d)) = Cleanrooms.Get k d.
Proof.
  intros Hne. unfold Cleanrooms.Set_.
  destruct (Cleanrooms.schema_lookup key) as [att|]; [|reflexivity].
  destruct (Cleanrooms.convert _ a) as [v|]; [|reflexivity].
  unfold Cleanrooms.Get, Cleanrooms.write. simpl.
  rewrite lookup_insert_ne by done. reflexivity.
Qed.

(** The read never writes [update_time]: the attribute reads after the
    call as it did before. *)
Lemma Read_update_time (d d' : Cleanrooms.ResourceData) (r r' : R) ds :
  Cleanrooms.resourceConfiguredTableRead conn d r = (Done (ds, d'), r') →
  Cleanrooms.Get "update_time" d' = Cleanrooms.Get "update_time" d.
Proof.
  unfold Cleanrooms.resourceConfiguredTableRead.
  destruct (Cleanrooms.findConfiguredTableByID conn _ r) as [[out err] r1].
  destruct (negb _ && _); [intros [= <- <- <-]; reflexivity|].
  destruct err; [intros [= <- <- <-]; reflexivity|].
  destruct (out ≫= _) as [t|]; [|discriminate].
  match goal with
  | |- context [Cleanrooms.Set_ "table_reference" ?a ?d0] =>
      destruct (Cleanrooms.Set_ "table_reference" a d0) as [e d''] eqn:E
  end.
  assert (Cleanrooms.Get "update_time" d'' = Cleanrooms.Get "update_time" d) as Hd.
  { change d'' with (snd (e, d'')). rewrite <- E.
    repeat (rewrite Get_Set_other by discriminate). reflexivity. }
  destruct e; intros [= <- <- <-]; exact Hd.
Qed.

(** The delete reports every error of the delete call, the remote
    not-found error included. *)
Lemma Delete_reports_error (d : Cleanrooms.ResourceData) (r r' : R) out e :
  Cleanrooms.DeleteConfiguredTable conn
    {| Cleanrooms.DeleteInput_ConfiguredTableIdentifier := Some (Cleanrooms.Id d) |} r
    = ((out, Some e), r') →
  Cleanrooms.resourceConfiguredTableDelete conn d r
  = ([Cleanrooms.DiagError Cleanrooms.ErrActionDeleting Cleanrooms.ResNameConfiguredTable
        (Cleanrooms.Id d) e], r').
Proof.
  intros H. unfold Cleanrooms.resourceConfiguredTableDelete, aws_String. rewrite H.
  reflexivity.
Qed.

(** What the update request is built from. *)
Lemma update_input_Done (d : Cleanrooms.ResourceData) input :
  Cleanrooms.update_input d = Done input →
  Cleanrooms.UpdateInput_ConfiguredTableIdentifier input = Some (Cleanrooms.Id d)
  ∧ (is_Some (Cleanrooms.UpdateInput_Description input) →
     Cleanrooms.HasChange "description" d = true)
  ∧ (is_Some (Cleanrooms.UpdateInput_Name input) →
     Cleanrooms.HasChange "name" d = true).
Proof.
  unfold Cleanrooms.update_input, Cleanrooms.HasChanges,
    names_AttrDescription, names_AttrName. simpl.
  rewrite !orb_false_r.
  destruct (Cleanrooms.HasChange "description" d), (Cleanrooms.HasChange "name" d);
    repeat (match goal with
            | |- context [Cleanrooms.as_string ?v] => destruct (Cleanrooms.as_string v)
            end; simpl);
    try discriminate; intros [= <-]; simpl;
    (split; [reflexivity|split; intros [? ?]; congruence]).
Qed.

End ConfiguredTable.

(** Importing a configured table that the in-memory service holds and
    reading it finds the table: the read is keyed by the identifier that
    the import passes through. *)
Lemma ConfiguredTable_import_then_Read (id : string) (t : Cleanrooms.ConfiguredTable)
    (m : gmap string Cleanrooms.ConfiguredTable) :
  m !! id = Some t →
  ∃ d', Cleanrooms.resourceConfiguredTableRead Cleanrooms.memory_service
          (Cleanrooms.ImportStatePassthroughContext id) m = (Done ([], d'), m)
        ∧ Cleanrooms.Id d' = id
        ∧ Cleanrooms.Get "arn" d' = Cleanrooms.VString (aws_ToString (Cleanrooms.ConfiguredTable_Arn t)).
Proof.
  intros Hm. unfold Cleanrooms.resourceConfiguredTableRead, Cleanrooms.findConfiguredTableByID.
  simpl. rewrite Hm. simpl. eexists. split; [reflexivity|].
  destruct (Cleanrooms.ConfiguredTable_CreateTime t); split; reflexivity.
Qed.

(** C2.  Deleting a configured table twice from the in-memory service:
    the first call succeeds, the second one meets the remote not-found
    error and reports it as a deleting error. *)
Theorem ConfiguredTable_Delete_twice :
  let m : gmap string Cleanrooms.ConfiguredTable := {[ "ct-n1" := remote_table ]} in
  let d := stored_table (table_attrs "n1") in
  let '(diags1, m1) := Cleanrooms.resourceConfiguredTableDelete Cleanrooms.memory_service d m in
  let '(diags2, m2) := Cleanrooms.resourceConfiguredTableDelete Cleanrooms.memory_service d m1 in
  diags1 = []
  ∧ m1 = ∅
  ∧ diags2 = [Cleanrooms.DiagError Cleanrooms.ErrActionDeleting
                Cleanrooms.ResNameConfiguredTable "ct-n1"
                (ResourceNotFoundException "ct-n1")].
Proof. vm_compute. repeat split. Qed.

(** C4.  A read that completes leaves [update_time] as it was, for every
    client and every answer of the service; so after a successful read of
    a table whose remote update time is 2024-01-01T00:00:00Z the record's
    [update_time] is still empty. *)
Theorem Read_leaves_update_time :
  (∀ (R : Type) (conn : Cleanrooms.Client R) (d d' : Cleanrooms.ResourceData)
     (r r' : R) (ds : list Cleanrooms.Diag),
      Cleanrooms.resourceConfiguredTableRead conn d r = (Done (ds, d'), r') →
      Cleanrooms.Get "update_time" d' = Cleanrooms.Get "update_time" d)
  ∧ (∃ d',
        fst (Cleanrooms.resourceConfiguredTableRead Cleanrooms.memory_service
               (stored_table (table_attrs "n1")) {[ "ct-n1" := remote_table ]})
          = Done ([], d')
        ∧ Cleanrooms.ConfiguredTable_UpdateTime remote_table = Some new_year_2024
        ∧ Cleanrooms.Get "update_time" d' = Cleanrooms.VString ""
        ∧ Cleanrooms.Get "arn" d'
          = Cleanrooms.VString "arn:aws:cleanrooms:us-east-1:123456789012:configuredtable/ct-n1").
Proof.
  split.
  - intros R conn d d' r r' ds. apply Read_update_time.
  - eexists. split; [vm_compute; reflexivity|]. repeat split.
Qed.

Lemma Read_leaves_update_time_witness :
  ∃ d',
    Cleanrooms.resourceConfiguredTableRead Cleanrooms.memory_service
      (stored_table (table_attrs "n1")) {[ "ct-n1" := remote_table ]}
      = (Done ([], d'), {[ "ct-n1" := remote_table ]})
    ∧ Cleanrooms.Get "update_time" d'
      = Cleanrooms.Get "update_time" (stored_table (table_attrs "n1")).
Proof.
  eexists. split; [vm_compute; reflexivity|].
  apply (proj1 Read_leaves_update_time _ Cleanrooms.memory_service
           (stored_table (table_attrs "n1")) _
           {[ "ct-n1" := remote_table ]} {[ "ct-n1" := remote_table ]} []).
  vm_compute. reflexivity.
Defined.

(** ** Update *)

(** When only [tags] and [tags_all] differ, [HasChangesExcept] finds no
    change. *)
Lemma HasChangesExcept_tags_only (d : Cleanrooms.ResourceData) :
  (∀ k, k ∈ Cleanrooms.schema_keys → k ≠ "tags" → k ≠ "tags_all" →
        Cleanrooms.read_level (Cleanrooms.prior d) k
        = Cleanrooms.read_level (Cleanrooms.planned d) k) →
  Cleanrooms.HasChangesExcept ["tags"; "tags_all"] d = false.
Proof.
  intros H. unfold Cleanrooms.HasChangesExcept.
  apply not_true_is_false. intros Hex.
  apply existsb_exists in Hex as (k & Hk & Hc).
  apply andb_true_iff in Hc as [Hnot Hchange].
  apply negb_true_iff, bool_decide_eq_false in Hnot.
  unfold Cleanrooms.HasChange in Hchange.
  apply negb_true_iff, bool_decide_eq_false in Hchange.
  apply Hchange, H.
  - apply list_elem_of_In, Hk.
  - intros ->. apply Hnot. repeat constructor.
  - intros ->. apply Hnot. repeat constructor.
Qed.

(** The calls of an update, through a recording client: nothing when
    building the request panics, else the update call when some attribute
    other than the tags changed, and then the get call of the read back
    unless the update call failed. *)
Lemma Update_logged {R} (conn : Cleanrooms.Client R) (d : Cleanrooms.ResourceData)
    (r : R) (log : list Cleanrooms.call) :
  let get := Cleanrooms.CallGetConfiguredTable
               {| Cleanrooms.GetInput_ConfiguredTableIdentifier := Some (Cleanrooms.Id d) |} in
  let log' :=
    snd (snd (Cleanrooms.resourceConfiguredTableUpdate (Cleanrooms.logged conn) d (r, log))) in
  if Cleanrooms.HasChangesExcept ["tags"; "tags_all"] d then
    match Cleanrooms.update_input d with
    | Panic _ => log' = log
    | Done input =>
        log' = log ++ [Cleanrooms.CallUpdateConfiguredTable input]
        ∨ log' = log ++ [Cleanrooms.CallUpdateConfiguredTable input; get]
    end
  else log' = log ++ [get].
Proof.
  intros get log'. subst log'. unfold Cleanrooms.resourceConfiguredTableUpdate.
  pose proof (Read_logged conn d) as Hread.
  destruct (Cleanrooms.HasChangesExcept _ d).
  - destruct (Cleanrooms.update_input d) as [input|p]; [|reflexivity].
    simpl.
    destruct (Cleanrooms.UpdateConfiguredTable conn input r) as [[out err] r1]. simpl.
    destruct err; [left; reflexivity|]. right.
    specialize (Hread r1 (log ++ [Cleanrooms.CallUpdateConfiguredTable input])).
    destruct (Cleanrooms.resourceConfiguredTableRead _ d _) as [[[ds d']|p] s]; simpl in *;
      rewrite Hread, <- app_assoc; reflexivity.
  - specialize (Hread r log).
    destruct (Cleanrooms.resourceConfiguredTableRead _ d _) as [[[ds d']|p] s]; simpl in *;
      exact Hread.
Qed.

(** C5, as stated, fails: in [tags_only] the plan differs from the prior
    state in [tags] and [tags_all] and in nothing else, and the update
    still calls the service, once, to read the table back. *)
Lemma Update_tags_only_calls_remote :
  List.filter (λ k, Cleanrooms.HasChange k tags_only) Cleanrooms.schema_keys
    = ["tags"; "tags_all"]
  ∧ snd (snd (Cleanrooms.resourceConfiguredTableUpdate
                (Cleanrooms.logged Cleanrooms.memory_service) tags_only
                ({[ "ct-n1" := remote_table ]}, [])))
    = [Cleanrooms.CallGetConfiguredTable
         {| Cleanrooms.GetInput_ConfiguredTableIdentifier := Some "ct-n1" |}]
  ∧ snd (snd (Cleanrooms.resourceConfiguredTableUpdate
                (Cleanrooms.logged Cleanrooms.memory_service) tags_only
                ({[ "ct-n1" := remote_table ]}, [])))
    ≠ [].
Proof. vm_compute. repeat split. discriminate. Qed.

(** C5, amended.  When the plan differs from the prior state in [tags]
    and [tags_all] only, the update sends no update request: the one call
    it makes is the get call of the read back, for the resource's
    identifier. *)
Theorem Update_tags_only_no_update_call :
  ∀ (R : Type) (conn : Cleanrooms.Client R) (d : Cleanrooms.ResourceData) (r : R)
    (log : list Cleanrooms.call),
    (∀ k, k ∈ Cleanrooms.schema_keys → k ≠ "tags" → k ≠ "tags_all" →
          Cleanrooms.read_level (Cleanrooms.prior d) k
          = Cleanrooms.read_level (Cleanrooms.planned d) k) →
    snd (snd (Cleanrooms.resourceConfiguredTableUpdate (Cleanrooms.logged conn) d (r, log)))
    = log ++ [Cleanrooms.CallGetConfiguredTable
                {| Cleanrooms.GetInput_ConfiguredTableIdentifier := Some (Cleanrooms.Id d) |}].
Proof.
  intros R conn d r log H.
  pose proof (Update_logged conn d r log) as Hlog. simpl in Hlog.
  rewrite (HasChangesExcept_tags_only d H) in Hlog. exact Hlog.
Qed.

Lemma Update_tags_only_no_update_call_witness :
  snd (snd (Cleanrooms.resourceConfiguredTableUpdate
              (Cleanrooms.logged Cleanrooms.memory_service) tags_only
              ({[ "ct-n1" := remote_table ]}, [])))
  = [] ++ [Cleanrooms.CallGetConfiguredTable
             {| Cleanrooms.GetInput_ConfiguredTableIdentifier := Some "ct-n1" |}].
Proof.
  apply (Update_tags_only_no_update_call _ Cleanrooms.memory_service tags_only
           {[ "ct-n1" := remote_table ]} []).
  intros k Hk Htags Hall. vm_compute in Hk.
  repeat (apply elem_of_cons in Hk as [->|Hk]; [try done; vm_compute; reflexivity|]).
  apply elem_of_nil in Hk. destruct Hk.
Defined.

(** C6.  Every update request that the update sends is for the
    resource's identifier, and every schema attribute it carries has
    changed and is not [ForceNew]; [allowed_columns] and [table_reference]
    are never carried, whether or not they differ. *)
Theorem Update_payload :
  ∀ (R : Type) (conn : Cleanrooms.Client R) (d : Cleanrooms.ResourceData) (r : R)
    (input : Cleanrooms.UpdateConfiguredTableInput),
    Cleanrooms.CallUpdateConfiguredTable input ∈
      snd (snd (Cleanrooms.resourceConfiguredTableUpdate (Cleanrooms.logged conn) d (r, []))) →
    Cleanrooms.UpdateInput_ConfiguredTableIdentifier input = Some (Cleanrooms.Id d)
    ∧ (∀ f, f ∈ payload_fields input →
            Cleanrooms.HasChange f d = true ∧ is_ForceNew f = false)
    ∧ ("allowed_columns" ∉ payload_fields input)
    ∧ ("table_reference" ∉ payload_fields input).
Proof.
  intros R conn d r input Hin.
  pose proof (Update_logged conn d r []) as Hlog. simpl in Hlog.
  assert (Cleanrooms.update_input d = Done input) as Hinput.
  { destruct (Cleanrooms.HasChangesExcept _ d).
    - destruct (Cleanrooms.update_input d) as [input'|p].
      + destruct Hlog as [Hlog|Hlog]; rewrite Hlog in Hin;
          repeat (apply elem_of_cons in Hin as [Hin|Hin]); try discriminate;
          try (apply elem_of_nil in Hin; destruct Hin); congruence.
      + rewrite Hlog in Hin. apply elem_of_nil in Hin. destruct Hin.
    - rewrite Hlog in Hin.
      apply elem_of_cons in Hin as [Hin|Hin]; [discriminate|].
      apply elem_of_nil in Hin. destruct Hin. }
  destruct (update_input_Done d input Hinput) as (Hid & Hdesc & Hname).
  split; [exact Hid|]. unfold payload_fields.
  destruct (Cleanrooms.UpdateInput_Description input) as [ds|],
           (Cleanrooms.UpdateInput_Name input) as [nm|]; simpl;
    (split; [intros f Hf|split; intros Hf];
     repeat (apply elem_of_cons in Hf as [Hf|Hf]); subst;
     try (apply elem_of_nil in Hf; destruct Hf); try discriminate;
     (split; [auto|reflexivity])).
Qed.

(** The plan [renamed] differs in [name] and in the two immutable
    attributes; the request carries the new name and nothing else. *)
Lemma Update_payload_witness :
  let input := {| Cleanrooms.UpdateInput_ConfiguredTableIdentifier := Some "ct-n1";
                  Cleanrooms.UpdateInput_Description := None;
                  Cleanrooms.UpdateInput_Name := Some "n2" |} in
  (Cleanrooms.HasChange "table_reference" renamed = true
   ∧ Cleanrooms.HasChange "allowed_columns" renamed = true)
  ∧ Cleanrooms.UpdateInput_ConfiguredTableIdentifier input = Some (Cleanrooms.Id renamed)
  ∧ (∀ f, f ∈ payload_fields input →
          Cleanrooms.HasChange f renamed = true ∧ is_ForceNew f = false)
  ∧ ("allowed_columns" ∉ payload_fields input)
  ∧ ("table_reference" ∉ payload_fields input).
Proof.
  intros input. split; [split; vm_compute; reflexivity|].
  apply (Update_payload _ Cleanrooms.memory_service renamed {[ "ct-n1" := remote_table ]} input).
  vm_compute. constructor.
Defined.

(** ** The table reference *)

(** C10.  [expandTableReference] indexes element 0 of its argument: on
    the empty list, and only there, it panics with an index out of range;
    it returns only for a list with a first element, and it does return
    for a list whose first element is a block with both names; the schema
    declares no minimum number of [table_reference] blocks. *)
Theorem expandTableReference_nonempty :
  Cleanrooms.expandTableReference [] = Panic IndexOutOfRange
  ∧ (∀ data, Cleanrooms.expandTableReference data = Panic IndexOutOfRange ↔ data = [])
  ∧ (∀ data, is_Done (Cleanrooms.expandTableReference data) = true → data ≠ [])
  ∧ (∀ m rest db tb,
        m !! "database_name" = Some (Cleanrooms.AString db) →
        m !! "table_name" = Some (Cleanrooms.AString tb) →
        Cleanrooms.expandTableReference (Cleanrooms.EMap m :: rest)
        = Done (Cleanrooms.TableReferenceMemberGlue
                  {| Cleanrooms.DatabaseName := Some db; Cleanrooms.TableName := Some tb |}))
  ∧ Cleanrooms.MinItems <$> Cleanrooms.schema_lookup "table_reference" = Some 0%nat.
Proof.
  split; [reflexivity|]. split; [|split; [|split; [|reflexivity]]].
  - intros data. split; [|intros ->; reflexivity].
    destruct data as [|e data]; [reflexivity|]. simpl.
    destruct e as [m|a]; [|discriminate].
    unfold Cleanrooms.index_string.
    destruct (m !! "database_name") as [[]|]; simpl; try discriminate.
    destruct (m !! "table_name") as [[]|]; simpl; discriminate.
  - intros data H ->. discriminate.
  - intros m rest db tb Hdb Htb. simpl. unfold Cleanrooms.index_string.
    rewrite Hdb. simpl. rewrite Htb. reflexivity.
Qed.

Lemma expandTableReference_nonempty_witness :
  [glue_block "db" "tb"] ≠ []
  ∧ Cleanrooms.expandTableReference [glue_block "db" "tb"]
    = Done (Cleanrooms.TableReferenceMemberGlue
              {| Cleanrooms.DatabaseName := Some "db"; Cleanrooms.TableName := Some "tb" |}).
Proof.
  split.
  - apply (proj1 (proj2 (proj2 expandTableReference_nonempty)) [glue_block "db" "tb"]).
    reflexivity.
  - apply (proj1 (proj2 (proj2 (proj2 expandTableReference_nonempty)))
             (<["database_name" := Cleanrooms.AString "db"]>
              (<["table_name" := Cleanrooms.AString "tb"]> ∅)) [] "db" "tb");
      reflexivity.
Defined.

(** With no [table_reference] block in the plan, which the schema's item
    counts allow, the create function panics before any remote call. *)
Lemma Create_without_table_reference :
  let d := {| Cleanrooms.Id := ""; Cleanrooms.IsNewResource := true; Cleanrooms.prior := ∅;
              Cleanrooms.planned := delete "table_reference" (table_attrs "n1");
              Cleanrooms.written := ∅ |} in
  Cleanrooms.resourceConfiguredTableCreate
    (Cleanrooms.logged Cleanrooms.memory_service) ∅ d (∅, [])
  = (Panic IndexOutOfRange, (∅, [])).
Proof. vm_compute. reflexivity. Qed.

(** * Further properties of the Tenant resource *)

(** X1.  [FindTenantByName] makes the one get call for the name, and
    returns either a tenant and no error, exactly when the call reports no
    error and its output holds a tenant (then that tenant), or no tenant
    and an error; never both and never neither. *)
Theorem FindTenantByName_result :
  ∀ (R : Type) (conn : Sesv2.Client R) (name : string) (r : R),
    let '((out, err), r') := Sesv2.FindTenantByName conn name r in
    let '((o, e), r1) :=
      Sesv2.GetTenant conn {| Sesv2.GetTenantInput_TenantName := Some name |} r in
    r' = r1
    ∧ match e, o ≫= Sesv2.GetTenantOutput_Tenant with
      | None, Some t => out = Some t ∧ err = None
      | _, _ => out = None ∧ is_Some err
      end.
Proof.
  intros R conn name r. unfold Sesv2.FindTenantByName, aws_String.
  destruct (Sesv2.GetTenant conn _ r) as [[o e] r1].
  destruct e as [e|].
  - destruct (errs_IsA_NotFoundException e); simpl;
      destruct (o ≫= Sesv2.GetTenantOutput_Tenant); eauto.
  - destruct o as [o|]; simpl; [|eauto].
    destruct (Sesv2.GetTenantOutput_Tenant o); simpl; eauto.
Qed.

(** X2.  [Read] finishes exactly when the get call reports no error and
    returns a tenant with a name; in every other case (any error, an
    empty output, a tenant without name) it panics at line 167. *)
Theorem Read_Done_iff :
  ∀ (R : Type) (conn : Sesv2.Client R) (state : Sesv2.resourceTenantModel) (r : R),
    let '((o, e), _) :=
      Sesv2.GetTenant conn
        {| Sesv2.GetTenantInput_TenantName := Some (ValueString (Sesv2.TenantName state)) |} r in
    (is_Done (fst (Sesv2.Read conn state r)) = true
     ↔ e = None ∧ ∃ t, o ≫= Sesv2.GetTenantOutput_Tenant = Some t
                       ∧ is_Some (Sesv2.Tenant_TenantName t))
    ∧ (is_Done (fst (Sesv2.Read conn state r)) = false
       ↔ fst (Sesv2.Read conn state r) = Panic NilPointerDereference).
Proof.
  intros R conn state r. unfold Sesv2.Read, Sesv2.FindTenantByName, aws_String.
  destruct (Sesv2.GetTenant conn _ r) as [[o e] r1].
  destruct e as [e|].
  - destruct (errs_IsA_NotFoundException e); simpl;
      (split; split; [discriminate|intros [? _]; discriminate|reflexivity|reflexivity]).
  - destruct o as [o|]; simpl.
    + destruct (Sesv2.GetTenantOutput_Tenant o) as [t|]; simpl.
      * destruct (Sesv2.Tenant_TenantName t) as [n|] eqn:En; simpl.
        -- split; split; try discriminate; try reflexivity.
           intros _. split; [reflexivity|]. exists t. rewrite En. eauto.
        -- split; split; try discriminate; try reflexivity.
           intros [_ (t' & [= <-] & Hn)]. rewrite En in Hn. destruct Hn; discriminate.
      * split; split; try discriminate; try reflexivity.
        intros [_ (t' & Ht & _)]. discriminate.
    + split; split; try discriminate; try reflexivity.
      intros [_ (t' & Ht & _)]. discriminate.
Qed.

(** X3.  A [Read] that finishes always stores a record: the branch of
    lines 169-173, which would remove the resource from the state, is
    never taken, because the finder returns no tenant together with its
    not-found error. *)
Theorem Read_never_removes :
  ∀ (R : Type) (conn : Sesv2.Client R) (state : Sesv2.resourceTenantModel) (r r' : R)
    (resp : Sesv2.Response),
    Sesv2.Read conn state r = (Done resp, r') →
    is_Some (Sesv2.State resp).
Proof.
  intros R conn state r r' resp. unfold Sesv2.Read, Sesv2.FindTenantByName, aws_String.
  destruct (Sesv2.GetTenant conn _ r) as [[o e] r1].
  destruct e as [e|].
  - destruct (errs_IsA_NotFoundException e); discriminate.
  - destruct o as [o|]; [|discriminate].
    destruct (Sesv2.GetTenantOutput_Tenant o) as [t|]; [|discriminate].
    destruct (Sesv2.Tenant_TenantName t); [|discriminate].
    simpl. intros [= <- _]. simpl. eauto.
Qed.

Lemma Read_never_removes_witness :
  ∃ resp,
    Sesv2.Read Sesv2.memory_service (tenant_plan "t1") {[ "t1" := Sesv2.new_Tenant "t1" ]}
      = (Done resp, {[ "t1" := Sesv2.new_Tenant "t1" ]})
    ∧ is_Some (Sesv2.State resp).
Proof.
  eexists. split; [vm_compute; reflexivity|].
  apply (Read_never_removes _ Sesv2.memory_service (tenant_plan "t1")
           {[ "t1" := Sesv2.new_Tenant "t1" ]} {[ "t1" := Sesv2.new_Tenant "t1" ]}).
  vm_compute. reflexivity.
Defined.

(** X4.  [Delete] makes the one delete call, keyed by the tenant name of
    the state, and reports an error exactly when that call fails with an
    error that is not a [NotFoundException]; the diagnostic then carries
    that error and the [id] of the state. *)
Theorem Delete_diagnostics :
  ∀ (R : Type) (conn : Sesv2.Client R) (state : Sesv2.resourceTenantModel) (r : R),
    let '((_, err), r1) :=
      Sesv2.DeleteTenant conn
        {| Sesv2.DeleteTenantInput_TenantName :=
             ValueStringPointer (Sesv2.TenantName state) |} r in
    let '(resp, r') := Sesv2.Delete conn state r in
    r' = r1
    ∧ (HasError (Sesv2.Diagnostics resp) = true
       ↔ ∃ e, err = Some e ∧ errs_IsA_NotFoundException e = false)
    ∧ (∀ e, err = Some e → errs_IsA_NotFoundException e = false →
            Sesv2.Diagnostics resp = [ErrorDiagnostic e (Sesv2.ID state)])
    ∧ (HasError (Sesv2.Diagnostics resp) = false → Sesv2.Diagnostics resp = []).
Proof.
  intros R conn state r. unfold Sesv2.Delete.
  destruct (Sesv2.DeleteTenant conn _ r) as [[out err] r1].
  destruct err as [e|]; [destruct (errs_IsA_NotFoundException e) eqn:E|]; simpl.
  - split; [reflexivity|]. split; [|split; [|reflexivity]].
    + split; [discriminate|]. intros (e' & He' & He).
      injection He' as <-. rewrite E in He. discriminate.
    + intros e' He' He. injection He' as <-. rewrite E in He. discriminate.
  - split; [reflexivity|]. split; [|split; [|discriminate]].
    + split; [|reflexivity]. intros _. exists e. done.
    + intros e' He' _. injection He' as <-. reflexivity.
  - split; [reflexivity|]. split; [|split; [|reflexivity]].
    + split; [discriminate|]. intros (e' & He' & _). discriminate.
    + intros e' He'. discriminate.
Qed.

(** X5.  [Create] makes the one create call and stores a record exactly
    when it reports no error, which is exactly when the call reports no
    error and returns an output with a tenant identifier; a failed call
    is reported with its error and the planned tenant name. *)
Theorem Create_stores_iff :
  ∀ (R : Type) (conn : Sesv2.Client R) (plan : Sesv2.resourceTenantModel) (r : R),
    let '((out, err), r1) := Sesv2.CreateTenant conn (snd (Sesv2.flex_Expand plan)) r in
    let '(resp, r') := Sesv2.Create conn plan r in
    r' = r1
    ∧ (is_Some (Sesv2.State resp)
       ↔ err = None ∧ is_Some (out ≫= Sesv2.CreateTenantOutput_TenantId))
    ∧ (is_Some (Sesv2.State resp) ↔ HasError (Sesv2.Diagnostics resp) = false)
    ∧ (∀ e, err = Some e →
            Sesv2.Diagnostics resp = [ErrorDiagnostic e (Sesv2.TenantName plan)]).
Proof.
  intros R conn plan r. unfold Sesv2.Create. simpl.
  destruct (Sesv2.CreateTenant conn _ r) as [[out err] r1].
  destruct err as [e|]; simpl.
  - split_and!; [reflexivity| | |intros e' [= <-]; reflexivity];
      (split; [intros [? ?]; discriminate|]); [intros [? _]|]; discriminate.
  - destruct out as [o|]; simpl.
    + destruct (Sesv2.CreateTenantOutput_TenantId o) as [id|] eqn:Eid; simpl.
      * split_and!; [reflexivity| | |discriminate]; split; eauto.
      * split_and!; [reflexivity| | |discriminate];
          (split; [intros [? ?]; discriminate|]); [intros [_ [? ?]]|]; discriminate.
    + split_and!; [reflexivity| | |discriminate];
        (split; [intros [? ?]; discriminate|]); [intros [_ [? ?]]|]; discriminate.
Qed.



(** X7.  The sweeper has no bound on the number of pages: against a
    service whose pages always carry a non-empty token, its loop does not
    end, whatever number of pages it is allowed. *)
Theorem sweepTenants_endless :
  ∀ (R : Type) (conn : Sesv2.Client R),
    (∀ input r, ∃ page tok r',
        Sesv2.ListTenants conn input r = ((Some page, None), r')
        ∧ Sesv2.ListTenantsOutput_NextToken page = Some tok ∧ tok ≠ "") →
    ∀ (fuel : nat) (r : R), Sesv2.sweepTenants fuel conn r = None.
Proof.
  intros R conn Hmore fuel. unfold Sesv2.sweepTenants.
  assert (∀ p acc r, Sesv2.HasMorePages p = true →
                     Sesv2.sweep_loop fuel conn p acc r = None) as Hloop.
  { induction fuel as [|fuel IH]; intros p acc r Hp; rewrite sweep_loop_eq, Hp; simpl.
    - reflexivity.
    - unfold Sesv2.NextPage. rewrite Hp. simpl.
      destruct (Hmore {| Sesv2.ListTenantsInput_NextToken := Sesv2.nextToken p |} r)
        as (page & tok & r' & -> & Htok & Hne).
      apply IH. unfold Sesv2.HasMorePages. simpl. rewrite Htok.
      rewrite bool_decide_eq_false_2 by done. reflexivity. }
  intros r. apply Hloop. reflexivity.
Qed.

Lemma sweepTenants_endless_witness :
  Sesv2.sweepTenants 1000 endless_service tt = None.
Proof.
  apply (sweepTenants_endless unit endless_service).
  intros input []. exists {| Sesv2.ListTenantsOutput_NextToken := Some "next";
                            Sesv2.ListTenantsOutput_Tenants := [] |}, "next", tt.
  repeat split. discriminate.
Defined.

(** * Properties of the acceptance-test helpers *)

(** X8.  [testAccCheckTenantNotRecreated] reads both identifiers from
    [before], so its answer does not depend on [after]: it passes for
    every pair with a tenant in [before], also when the tenant in [after]
    has another identifier, and it never reports a recreation. *)
Theorem testAccCheckTenantNotRecreated_never_fails :
  ∀ (before after : option Sesv2.GetTenantOutput),
    Sesv2Test.testAccCheckTenantNotRecreated before after
    = match before ≫= Sesv2.GetTenantOutput_Tenant with
      | Some _ => Done None
      | None => Panic NilPointerDereference
      end.
Proof.
  intros before after. unfold Sesv2Test.testAccCheckTenantNotRecreated.
  destruct (before ≫= Sesv2.GetTenantOutput_Tenant) as [t|]; [|reflexivity].
  rewrite bool_decide_eq_true_2 by reflexivity. reflexivity.
Qed.

(** X9.  [testAccCheckTenantDestroy] returns from inside its loop at the
    first resource of type [aws_sesv2_tenant]: the resources visited
    after it are not looked at, and a state without tenant resources
    passes without a remote call. *)
Theorem testAccCheckTenantDestroy_first_only :
  ∀ (R : Type) (conn : Sesv2.Client R) (pre rest : list Sesv2Test.ResourceState)
    (rs : Sesv2Test.ResourceState) (r : R),
    Forall (λ x, Sesv2Test.Type_ x ≠ "aws_sesv2_tenant") pre →
    Sesv2Test.testAccCheckTenantDestroy conn pre r = (Done None, r)
    ∧ (Sesv2Test.Type_ rs = "aws_sesv2_tenant" →
       Sesv2Test.testAccCheckTenantDestroy conn (pre ++ rs :: rest) r
       = Sesv2Test.testAccCheckTenantDestroy conn [rs] r).
Proof.
  intros R conn pre rest rs r Hpre.
  induction Hpre as [|x pre Hx Hpre [IH1 IH2]]; simpl.
  - split; [reflexivity|]. intros Hrs. rewrite bool_decide_eq_true_2 by done. simpl.
    destruct (Sesv2Test.Primary rs) as [primary|]; [|reflexivity].
    destruct (Sesv2.FindTenantByName conn _ r) as [[out err] r1].
    destruct (tfresource_NotFound err); [reflexivity|]. destruct err; reflexivity.
  - rewrite bool_decide_eq_false_2 by done. simpl. split; [exact IH1|exact IH2].
Qed.

(** Two tenant resources in the state, the first one destroyed and the
    second one still held by the service: the check passes, as it does for
    the first one alone, although the second one alone would fail it. *)
Lemma testAccCheckTenantDestroy_first_only_witness :
  let m : gmap string Sesv2.Tenant := {[ "b" := Sesv2.new_Tenant "b" ]} in
  Sesv2Test.testAccCheckTenantDestroy Sesv2.memory_service
    [tenant_resource "a"; tenant_resource "b"] m
  = Sesv2Test.testAccCheckTenantDestroy Sesv2.memory_service [tenant_resource "a"] m
  ∧ Sesv2Test.testAccCheckTenantDestroy Sesv2.memory_service [tenant_resource "a"] m
    = (Done None, m)
  ∧ Sesv2Test.testAccCheckTenantDestroy Sesv2.memory_service [tenant_resource "b"] m
    = (Done (Some (Sesv2Test.create_Error Sesv2Test.ErrActionCheckingDestroyed "b"
                     (ErrorsNew "not destroyed"))), m).
Proof.
  intros m. split; [|split; reflexivity].
  apply (proj2 (testAccCheckTenantDestroy_first_only _ Sesv2.memory_service []
                  [tenant_resource "b"] (tenant_resource "a") m (List.Forall_nil _))).
  reflexivity.
Defined.

(** X10.  [testAccCheckTenantExists] passes exactly when the state holds
    the named resource with a non-empty [tenant_name] and the finder
    returns no error for that name; when the resource or the attribute is
    missing or empty it fails without a remote call. *)
Theorem testAccCheckTenantExists_iff :
  ∀ (R : Type) (conn : Sesv2.Client R) (name : string)
    (resources : gmap string Sesv2Test.ResourceState) (r : R),
    (fst (Sesv2Test.testAccCheckTenantExists conn name resources r) = Done None
     ↔ ∃ rs primary tenantName,
         resources !! name = Some rs
         ∧ Sesv2Test.Primary rs = Some primary
         ∧ Sesv2Test.Attributes primary !! "tenant_name" = Some tenantName
         ∧ tenantName ≠ ""
         ∧ snd (fst (Sesv2.FindTenantByName conn tenantName r)) = None)
    ∧ ((∀ rs primary,
           resources !! name = Some rs → Sesv2Test.Primary rs = Some primary →
           Sesv2Test.index (Sesv2Test.Attributes primary) "tenant_name" = "") →
       snd (Sesv2Test.testAccCheckTenantExists conn name resources r) = r).
Proof.
  intros R conn name resources r. unfold Sesv2Test.testAccCheckTenantExists, Sesv2Test.index.
  destruct (resources !! name) as [rs|] eqn:Ers; simpl.
  - destruct (Sesv2Test.Primary rs) as [primary|] eqn:Ep; simpl.
    + destruct (Sesv2Test.Attributes primary !! "tenant_name") as [tn|] eqn:Etn; simpl.
      * destruct (decide (tn = "")) as [->|Hne].
        -- rewrite bool_decide_eq_true_2 by done. simpl. split; [|reflexivity].
           split; [discriminate|]. intros (rs' & p' & tn' & H1 & H2 & H3 & H4 & _).
           by simplify_eq.
        -- rewrite bool_decide_eq_false_2 by done.
           destruct (Sesv2.FindTenantByName conn tn r) as [[out err] r1] eqn:Ef. split.
           ++ split.
              ** destruct err; [discriminate|]. intros _.
                 exists rs, primary, tn. rewrite Ef. done.
              ** intros (rs' & p' & tn' & H1 & H2 & H3 & _ & Herr).
                 simplify_eq. rewrite Ef in Herr. simpl in Herr.
                 rewrite Herr. reflexivity.
           ++ intros H. specialize (H rs primary eq_refl Ep).
              rewrite Etn in H. done.
      * split; [|reflexivity]. split; [discriminate|].
        intros (rs' & p' & tn' & H1 & H2 & H3 & _). by simplify_eq.
    + split; [|reflexivity]. split; [discriminate|].
      intros (rs' & p' & tn' & H1 & H2 & _). by simplify_eq.
  - split; [|reflexivity]. split; [discriminate|].
    intros (rs' & p' & tn' & H1 & _). discriminate.
Qed.

Lemma testAccCheckTenantExists_iff_witness :
  let resources : gmap string Sesv2Test.ResourceState :=
    {[ "aws_sesv2_tenant.test" :=
         {| Sesv2Test.Type_ := "aws_sesv2_tenant";
            Sesv2Test.Primary := Some {| Sesv2Test.Attributes := ∅ |} |} ]} in
  snd (Sesv2Test.testAccCheckTenantExists Sesv2.memory_service "aws_sesv2_tenant.test"
         resources {[ "t1" := Sesv2.new_Tenant "t1" ]})
  = {[ "t1" := Sesv2.new_Tenant "t1" ]}.
Proof.
  intros resources.
  apply (proj2 (testAccCheckTenantExists_iff _ Sesv2.memory_service "aws_sesv2_tenant.test"
                  resources {[ "t1" := Sesv2.new_Tenant "t1" ]})).
  intros rs primary Hrs Hp. vm_compute in Hrs. injection Hrs as <-.
  simpl in Hp. injection Hp as <-. reflexivity.
Defined.

(** * Further properties of the Configured Table resource *)

Lemma Set_frame (key : string) (a : Cleanrooms.set_arg) (d : Cleanrooms.ResourceData) :
  Cleanrooms.Id (snd (Cleanrooms.Set_ key a d)) = Cleanrooms.Id d
  ∧ Cleanrooms.IsNewResource (snd (Cleanrooms.Set_ key a d)) = Cleanrooms.IsNewResource d
  ∧ Cleanrooms.prior (snd (Cleanrooms.Set_ key a d)) = Cleanrooms.prior d
  ∧ Cleanrooms.planned (snd (Cleanrooms.Set_ key a d)) = Cleanrooms.planned d.
Proof.
  unfold Cleanrooms.Set_.
  destruct (Cleanrooms.schema_lookup key) as [att|]; [|done].
  destruct (Cleanrooms.convert _ a); done.
Qed.


(** The read dereferences the finder's output only after the finder has
    checked it. *)
Lemma Read_cases {R} (conn : Cleanrooms.Client R) (d : Cleanrooms.ResourceData) (r : R) :
  let '((out, err), r1) := Cleanrooms.findConfiguredTableByID conn (Cleanrooms.Id d) r in
  match err with
  | Some e => out = None
  | None => ∃ o t, out = Some o ∧ Cleanrooms.GetOutput_ConfiguredTable o = Some t
  end.
Proof.
  unfold Cleanrooms.findConfiguredTableByID.
  destruct (Cleanrooms.GetConfiguredTable conn _ r) as [[out err] r1].
  destruct err; [reflexivity|].
  destruct out as [o|]; [|reflexivity].
  destruct (Cleanrooms.GetOutput_ConfiguredTable o) eqn:E; [eauto|reflexivity].
Qed.

(** X11.  [resourceConfiguredTableRead] never panics: whatever the
    client answers, the dereference of [out.ConfiguredTable] at line 680
    is reached only with an output that holds a table. *)
Theorem ConfiguredTable_Read_never_panics :
  ∀ (R : Type) (conn : Cleanrooms.Client R) (d : Cleanrooms.ResourceData) (r : R),
    is_Done (fst (Cleanrooms.resourceConfiguredTableRead conn d r)) = true.
Proof.
  intros R conn d r. pose proof (Read_cases conn d r) as H.
  unfold Cleanrooms.resourceConfiguredTableRead.
  destruct (Cleanrooms.findConfiguredTableByID conn _ r) as [[out err] r1].
  destruct (negb _ && _); [reflexivity|].
  destruct err; [reflexivity|].
  destruct H as (o & t & -> & Ht). simpl. rewrite Ht. reflexivity.
Qed.

(** X12.  A read writes only the seven attributes of lines 681-688:
    every other attribute ([tags], [tags_all], [update_time]) reads after
    it as before, the prior and the planned values are as before, and the
    identifier is as before or cleared. *)
Theorem ConfiguredTable_Read_frame :
  ∀ (R : Type) (conn : Cleanrooms.Client R) (d d' : Cleanrooms.ResourceData) (r r' : R)
    (ds : list Cleanrooms.Diag),
    Cleanrooms.resourceConfiguredTableRead conn d r = (Done (ds, d'), r') →
    Cleanrooms.prior d' = Cleanrooms.prior d
    ∧ Cleanrooms.planned d' = Cleanrooms.planned d
    ∧ Cleanrooms.IsNewResource d' = Cleanrooms.IsNewResource d
    ∧ (Cleanrooms.Id d' = Cleanrooms.Id d ∨ Cleanrooms.Id d' = "")
    ∧ (∀ k, k ∉ read_keys → Cleanrooms.Get k d' = Cleanrooms.Get k d).
Proof.
  intros R conn d d' r r' ds. unfold Cleanrooms.resourceConfiguredTableRead.
  destruct (Cleanrooms.findConfiguredTableByID conn _ r) as [[out err] r1].
  destruct (negb _ && _); [intros [= <- <- <-]; simpl; eauto 10|].
  destruct err; [intros [= <- <- <-]; eauto 10|].
  destruct (out ≫= Cleanrooms.GetOutput_ConfiguredTable) as [t|]; [|discriminate].
  match goal with
  | |- context [Cleanrooms.Set_ "table_reference" ?a ?d0] =>
      destruct (Cleanrooms.Set_ "table_reference" a d0) as [e d''] eqn:E
  end.
  assert (Cleanrooms.prior d'' = Cleanrooms.prior d
          ∧ Cleanrooms.planned d'' = Cleanrooms.planned d
          ∧ Cleanrooms.IsNewResource d'' = Cleanrooms.IsNewResource d
          ∧ (Cleanrooms.Id d'' = Cleanrooms.Id d ∨ Cleanrooms.Id d'' = "")
          ∧ (∀ k, k ∉ read_keys → Cleanrooms.Get k d'' = Cleanrooms.Get k d)) as H.
  { change d'' with (snd (e, d'')). rewrite <- E. clear E.
    split_and!.
    - repeat (etrans; [apply Set_frame|]). reflexivity.
    - repeat (etrans; [apply Set_frame|]). reflexivity.
    - repeat (etrans; [apply Set_frame|]). reflexivity.
    - left. repeat (etrans; [apply Set_frame|]). reflexivity.
    - intros k Hk. unfold read_keys in Hk.
      repeat (rewrite Get_Set_other; [|intros <-; apply Hk; repeat constructor]).
      reflexivity. }
  destruct e; intros [= <- <- <-]; exact H.
Qed.

Lemma ConfiguredTable_Read_frame_witness :
  ∃ d',
    Cleanrooms.resourceConfiguredTableRead Cleanrooms.memory_service tags_only
      {[ "ct-n1" := remote_table ]}
      = (Done ([], d'), {[ "ct-n1" := remote_table ]})
    ∧ Cleanrooms.Get "tags" d' = Cleanrooms.VMap {[ "k" := "v" ]}.
Proof.
  eexists. split; [vm_compute; reflexivity|].
  etrans.
  - apply (ConfiguredTable_Read_frame _ Cleanrooms.memory_service tags_only _
             {[ "ct-n1" := remote_table ]} {[ "ct-n1" := remote_table ]} []).
    + vm_compute. reflexivity.
    + unfold read_keys. intros H.
      repeat (apply elem_of_cons in H as [H|H]; [discriminate|]).
      apply elem_of_nil in H. destruct H.
  - vm_compute. reflexivity.
Defined.

(** X13.  For a resource that is being created, the read never clears
    the identifier, and it reports every error of the finder, a not-found
    one included, as a reading error that leaves the data as it was. *)
Theorem ConfiguredTable_Read_new_resource :
  ∀ (R : Type) (conn : Cleanrooms.Client R) (d d' : Cleanrooms.ResourceData) (r r' : R)
    (ds : list Cleanrooms.Diag),
    Cleanrooms.IsNewResource d = true →
    Cleanrooms.resourceConfiguredTableRead conn d r = (Done (ds, d'), r') →
    Cleanrooms.Id d' = Cleanrooms.Id d
    ∧ (∀ e, snd (fst (Cleanrooms.findConfiguredTableByID conn (Cleanrooms.Id d) r)) = Some e →
            ds = [Cleanrooms.DiagError Cleanrooms.ErrActionReading
                    Cleanrooms.ResNameConfiguredTable (Cleanrooms.Id d) e]
            ∧ d' = d).
Proof.
  intros R conn d d' r r' ds Hnew. unfold Cleanrooms.resourceConfiguredTableRead.
  destruct (Cleanrooms.findConfiguredTableByID conn _ r) as [[out err] r1].
  rewrite Hnew. simpl.
  destruct err as [e|].
  - intros [= <- <- <-]. split; [reflexivity|]. intros e' [= <-]. done.
  - destruct (out ≫= Cleanrooms.GetOutput_ConfiguredTable) as [t|]; [|discriminate].
    intros [= <- <- <-]. split; [|discriminate].
    repeat (etrans; [apply Set_frame|]). reflexivity.
Qed.

Lemma ConfiguredTable_Read_new_resource_witness :
  ∃ d',
    Cleanrooms.resourceConfiguredTableRead Cleanrooms.memory_service
      (Cleanrooms.SetId "ct-n1" new_table) {[ "ct-n1" := remote_table ]}
      = (Done ([], d'), {[ "ct-n1" := remote_table ]})
    ∧ Cleanrooms.Id d' = "ct-n1".
Proof.
  eexists. split; [vm_compute; reflexivity|].
  apply (ConfiguredTable_Read_new_resource _ Cleanrooms.memory_service
           (Cleanrooms.SetId "ct-n1" new_table) _
           {[ "ct-n1" := remote_table ]} {[ "ct-n1" := remote_table ]} [] eq_refl).
  vm_compute. reflexivity.
Defined.



(** A change of an attribute other than the tags makes
    [HasChangesExcept] true. *)
Lemma HasChangesExcept_true (d : Cleanrooms.ResourceData) (k : string) :
  k ∈ Cleanrooms.schema_keys → k ≠ "tags" → k ≠ "tags_all" →
  Cleanrooms.HasChange k d = true →
  Cleanrooms.HasChangesExcept ["tags"; "tags_all"] d = true.
Proof.
  intros Hk Htags Hall Hc. unfold Cleanrooms.HasChangesExcept.
  apply existsb_exists. exists k. split; [apply list_elem_of_In, Hk|].
  rewrite Hc, andb_true_r. apply negb_true_iff, bool_decide_eq_false.
  intros H. repeat (apply elem_of_cons in H as [H|H]; [done|]).
  apply elem_of_nil in H. destruct H.
Qed.

(** X15.  When an attribute other than the tags has changed and the
    update call fails, the update stops there: it returns the error as an
    updating error for the identifier, leaves the data as it was, and does
    not read the table back. *)
Theorem Update_failure :
  ∀ (R : Type) (conn : Cleanrooms.Client R) (d : Cleanrooms.ResourceData) (r r' : R)
    (log : list Cleanrooms.call) (k : string) (input : Cleanrooms.UpdateConfiguredTableInput)
    (out : option Cleanrooms.UpdateConfiguredTableOutput) (e : error),
    k ∈ Cleanrooms.schema_keys → k ≠ "tags" → k ≠ "tags_all" →
    Cleanrooms.HasChange k d = true →
    Cleanrooms.update_input d = Done input →
    Cleanrooms.UpdateConfiguredTable conn input r = ((out, Some e), r') →
    Cleanrooms.resourceConfiguredTableUpdate (Cleanrooms.logged conn) d (r, log)
    = (Done ([Cleanrooms.DiagError Cleanrooms.ErrActionUpdating
                Cleanrooms.ResNameConfiguredTable (Cleanrooms.Id d) e], d),
       (r', log ++ [Cleanrooms.CallUpdateConfiguredTable input])).
Proof.
  intros R conn d r r' log k input out e Hk Htags Hall Hc Hin Hcall.
  unfold Cleanrooms.resourceConfiguredTableUpdate.
  rewrite (HasChangesExcept_true d k Hk Htags Hall Hc), Hin. simpl.
  rewrite Hcall. reflexivity.
Qed.

(** Renaming a table that the service does not hold. *)
Lemma Update_failure_witness :
  Cleanrooms.resourceConfiguredTableUpdate (Cleanrooms.logged Cleanrooms.memory_service)
    renamed (∅, [])
  = (Done ([Cleanrooms.DiagError Cleanrooms.ErrActionUpdating
              Cleanrooms.ResNameConfiguredTable "ct-n1" (ResourceNotFoundException "ct-n1")],
           renamed),
     (∅, [] ++ [Cleanrooms.CallUpdateConfiguredTable
                  {| Cleanrooms.UpdateInput_ConfiguredTableIdentifier := Some "ct-n1";
                     Cleanrooms.UpdateInput_Description := None;
                     Cleanrooms.UpdateInput_Name := Some "n2" |}])).
Proof.
  apply (Update_failure _ Cleanrooms.memory_service renamed ∅ ∅ [] "name" _ None
           (ResourceNotFoundException "ct-n1")).
  - vm_compute. repeat constructor.
  - discriminate.
  - discriminate.
  - vm_compute. reflexivity.
  - vm_compute. reflexivity.
  - vm_compute. reflexivity.
Defined.

(** X16.  [analysis_method] is not [ForceNew], yet the update never
    sends it: when it is the only attribute of the three that changed, the
    update still calls the service, with a request that carries the
    identifier and neither name nor description. *)
Theorem Update_analysis_method_only :
  ∀ (R : Type) (conn : Cleanrooms.Client R) (d : Cleanrooms.ResourceData) (r : R)
    (log : list Cleanrooms.call),
    Cleanrooms.HasChange "analysis_method" d = true →
    Cleanrooms.HasChange "name" d = false →
    Cleanrooms.HasChange "description" d = false →
    is_ForceNew "analysis_method" = false
    ∧ ∃ rest,
        snd (snd (Cleanrooms.resourceConfiguredTableUpdate (Cleanrooms.logged conn) d (r, log)))
        = log ++ Cleanrooms.CallUpdateConfiguredTable
                   {| Cleanrooms.UpdateInput_ConfiguredTableIdentifier := Some (Cleanrooms.Id d);
                      Cleanrooms.UpdateInput_Description := None;
                      Cleanrooms.UpdateInput_Name := None |} :: rest.
Proof.
  intros R conn d r log Ham Hname Hdesc. split; [reflexivity|].
  pose proof (Update_logged conn d r log) as Hlog. simpl in Hlog.
  rewrite (HasChangesExcept_true d "analysis_method") in Hlog;
    [|vm_compute; repeat constructor|discriminate|discriminate|exact Ham].
  assert (Cleanrooms.update_input d
          = Done {| Cleanrooms.UpdateInput_ConfiguredTableIdentifier := Some (Cleanrooms.Id d);
                    Cleanrooms.UpdateInput_Description := None;
                    Cleanrooms.UpdateInput_Name := None |}) as Hin.
  { unfold Cleanrooms.update_input, Cleanrooms.HasChanges, names_AttrDescription,
      names_AttrName. simpl. rewrite Hname, Hdesc. reflexivity. }
  rewrite Hin in Hlog. destruct Hlog as [-> | ->]; eauto.
Qed.

Lemma Update_analysis_method_only_witness :
  let d := stored_table (<["analysis_method" := Cleanrooms.VString "OTHER"]> (table_attrs "n1")) in
  ∃ rest,
    snd (snd (Cleanrooms.resourceConfiguredTableUpdate
                (Cleanrooms.logged Cleanrooms.memory_service) d
                ({[ "ct-n1" := remote_table ]}, [])))
    = [] ++ Cleanrooms.CallUpdateConfiguredTable
              {| Cleanrooms.UpdateInput_ConfiguredTableIdentifier := Some (Cleanrooms.Id d);
                 Cleanrooms.UpdateInput_Description := None;
                 Cleanrooms.UpdateInput_Name := None |} :: rest.
Proof.
  intros d.
  apply (Update_analysis_method_only _ Cleanrooms.memory_service d
           {[ "ct-n1" := remote_table ]} []); vm_compute; reflexivity.
Defined.

(** X17.  An analysis method other than [DIRECT_QUERY] is refused before
    any remote call: the create function makes no call, leaves the data as
    it was and, unless reading the plan panics, reports the creating error
    of [expandAnalysisMethod] under the planned name. *)
Theorem Create_invalid_analysis_method :
  ∀ (R : Type) (conn : Cleanrooms.Client R) (tagsIn : gmap string string)
    (d : Cleanrooms.ResourceData) (r : R) (log : list Cleanrooms.call) (s : string),
    Cleanrooms.Get "analysis_method" d = Cleanrooms.VString s →
    s ≠ "DIRECT_QUERY" →
    let '(res, (r', log')) :=
      Cleanrooms.resourceConfiguredTableCreate (Cleanrooms.logged conn) tagsIn d (r, log) in
    r' = r ∧ log' = log
    ∧ match res with
      | Done (ds, d') =>
          d' = d
          ∧ ∃ name, Cleanrooms.Get "name" d = Cleanrooms.VString name
                    ∧ ds = [Cleanrooms.DiagError Cleanrooms.ErrActionCreating
                              Cleanrooms.ResNameConfiguredTable name
                              (ErrorsNew "Invalid analysis method. The only valid value is currently `DIRECT_QUERY`")]
      | Panic _ => True
      end.
Proof.
  intros R conn tagsIn d r log s Ham Hs.
  unfold Cleanrooms.resourceConfiguredTableCreate, Cleanrooms.create_input, names_AttrName.
  destruct (Cleanrooms.Get "name" d) as [name| | |]; simpl; try done.
  destruct (Cleanrooms.as_set _) as [cols|]; simpl; [|done].
  destruct (Cleanrooms.as_list _) as [data|]; simpl; [|done].
  destruct (Cleanrooms.expandTableReference data) as [tr|]; simpl; [|done].
  rewrite Ham. simpl. unfold Cleanrooms.expandAnalysisMethod.
  rewrite bool_decide_eq_false_2 by done. simpl. eauto 10.
Qed.

Lemma Create_invalid_analysis_method_witness :
  let d := {| Cleanrooms.Id := ""; Cleanrooms.IsNewResource := true; Cleanrooms.prior := ∅;
              Cleanrooms.planned :=
                <["analysis_method" := Cleanrooms.VString "AGGREGATION"]> (table_attrs "n1");
              Cleanrooms.written := ∅ |} in
  let '(res, (r', log')) :=
    Cleanrooms.resourceConfiguredTableCreate
      (Cleanrooms.logged Cleanrooms.memory_service) ∅ d (∅, []) in
  r' = ∅ ∧ log' = []
  ∧ match res with
    | Done (ds, d') =>
        d' = d
        ∧ ∃ name, Cleanrooms.Get "name" d = Cleanrooms.VString name
                  ∧ ds = [Cleanrooms.DiagError Cleanrooms.ErrActionCreating
                            Cleanrooms.ResNameConfiguredTable name
                            (ErrorsNew "Invalid analysis method. The only valid value is currently `DIRECT_QUERY`")]
    | Panic _ => True
    end.
Proof.
  intros d.
  apply (Create_invalid_analysis_method _ Cleanrooms.memory_service ∅ d ∅ [] "AGGREGATION").
  - vm_compute. reflexivity.
  - discriminate.
Defined.

(** X18.  The remote calls of a create, in order: none when the request
    cannot be built; the create call alone when it fails or returns no
    table; else the create call and then one get call, for the identifier
    of the returned table (the empty identifier when the table has
    none). *)
Theorem Create_calls :
  ∀ (R : Type) (conn : Cleanrooms.Client R) (tagsIn : gmap string string)
    (d : Cleanrooms.ResourceData) (r : R),
    let log' :=
      snd (snd (Cleanrooms.resourceConfiguredTableCreate
                  (Cleanrooms.logged conn) tagsIn d (r, []))) in
    match Cleanrooms.create_input tagsIn d with
    | Done (_, inl input) =>
        match Cleanrooms.CreateConfiguredTable conn input r with
        | ((out, None), _) =>
            match out ≫= Cleanrooms.CreateOutput_ConfiguredTable with
            | Some t =>
                log' = [Cleanrooms.CallCreateConfiguredTable input;
                        Cleanrooms.CallGetConfiguredTable
                          {| Cleanrooms.GetInput_ConfiguredTableIdentifier :=
                               Some (aws_ToString (Cleanrooms.ConfiguredTable_Id t)) |}]
            | None => log' = [Cleanrooms.CallCreateConfiguredTable input]
            end
        | ((_, Some _), _) => log' = [Cleanrooms.CallCreateConfiguredTable input]
        end
    | _ => log' = []
    end.
Proof.
  intros R conn tagsIn d r. simpl. unfold Cleanrooms.resourceConfiguredTableCreate.
  destruct (Cleanrooms.create_input tagsIn d) as [[name [input|e]]|p]; [|reflexivity..].
  simpl. destruct (Cleanrooms.CreateConfiguredTable conn input r) as [[out err] r1]. simpl.
  destruct err; [reflexivity|].
  destruct (out ≫= Cleanrooms.CreateOutput_ConfiguredTable) as [t|]; [|reflexivity].
  rewrite Read_logged. reflexivity.
Qed.

(** X19.  What [flattenTableReference] returns has at most one element,
    as the schema's [MaxItems] asks, and none for a reference that is not
    a Glue reference.  Written with [d.Set] and expanded again, a Glue
    reference comes back with an absent name turned into the empty name;
    expanded as it is, with its names still pointers, it makes the type
    assertion of [expandTableReference] panic. *)
Theorem flatten_expand_TableReference :
  (∀ tr, length (Cleanrooms.flattenTableReference tr) ≤ 1)%nat
  ∧ (∀ tr, Cleanrooms.flattenTableReference tr = []
           ↔ ∀ v, tr ≠ Some (Cleanrooms.TableReferenceMemberGlue v))
  ∧ (∀ v, Cleanrooms.expandTableReference
            (Cleanrooms.normalize_elem <$>
             Cleanrooms.flattenTableReference (Some (Cleanrooms.TableReferenceMemberGlue v)))
          = Done (Cleanrooms.TableReferenceMemberGlue
                    {| Cleanrooms.DatabaseName := Some (aws_ToString (Cleanrooms.DatabaseName v));
                       Cleanrooms.TableName := Some (aws_ToString (Cleanrooms.TableName v)) |}))
  ∧ (∀ v, Cleanrooms.expandTableReference
            (Cleanrooms.flattenTableReference (Some (Cleanrooms.TableReferenceMemberGlue v)))
          = Panic InterfaceConversion).
Proof.
  split_and!.
  - intros [[v|]|]; simpl; lia.
  - intros [[v|]|]; simpl; split; try done.
    intros H. destruct (H v). reflexivity.
  - intros [db tb]. reflexivity.
  - intros [db tb]. reflexivity.
Qed.

(** The delete makes exactly one remote call, the delete call for
    the identifier, and reports an error exactly when that call fails. *)
Theorem ConfiguredTable_Delete_call :
  ∀ (R : Type) (conn : Cleanrooms.Client R) (d : Cleanrooms.ResourceData) (r : R)
    (log : list Cleanrooms.call),
    let '(ds, (r', log')) :=
      Cleanrooms.resourceConfiguredTableDelete (Cleanrooms.logged conn) d (r, log) in
    let '((_, err), r1) :=
      Cleanrooms.DeleteConfiguredTable conn
        {| Cleanrooms.DeleteInput_ConfiguredTableIdentifier := Some (Cleanrooms.Id d) |} r in
    r' = r1
    ∧ log' = log ++ [Cleanrooms.CallDeleteConfiguredTable
                       {| Cleanrooms.DeleteInput_ConfiguredTableIdentifier :=
                            Some (Cleanrooms.Id d) |}]
    ∧ (ds = [] ↔ err = None)
    ∧ (∀ e, err = Some e →
            ds = [Cleanrooms.DiagError Cleanrooms.ErrActionDeleting
                    Cleanrooms.ResNameConfiguredTable (Cleanrooms.Id d) e]).
Proof.
  intros R conn d r log. unfold Cleanrooms.resourceConfiguredTableDelete, aws_String. simpl.
  destruct (Cleanrooms.DeleteConfiguredTable conn _ r) as [[out err] r1]. simpl.
  destruct err as [e|]; simpl; split_and!; try done.
  intros e' [= <-]. reflexivity.
Qed.

(** ** Schema-typed data *)

Lemma typed_level_empty : typed_level ∅.
Proof. intros k v a H. rewrite lookup_empty in H. discriminate. Qed.

Lemma typed_level_insert (m : gmap string Cleanrooms.value) (key : string)
    (v : Cleanrooms.value) :
  (∀ a, Cleanrooms.schema_lookup key = Some a → type_of v = Cleanrooms.Type_ a) →
  typed_level m → typed_level (<[key := v]> m).
Proof.
  intros Hv Hm k v' a Hk Ha. destruct (decide (key = k)) as [->|Hne].
  - rewrite lookup_insert_eq in Hk. injection Hk as <-. apply Hv, Ha.
  - rewrite lookup_insert_ne in Hk by done. eapply Hm; eassumption.
Qed.

Lemma zero_of_typed (k : string) a :
  Cleanrooms.schema_lookup k = Some a → type_of (Cleanrooms.zero_of k) = Cleanrooms.Type_ a.
Proof.
  intros Ha. unfold Cleanrooms.zero_of. rewrite Ha. destruct (Cleanrooms.Type_ a); reflexivity.
Qed.

Lemma Get_typed (d : Cleanrooms.ResourceData) (k : string) a :
  well_typed d → Cleanrooms.schema_lookup k = Some a →
  type_of (Cleanrooms.Get k d) = Cleanrooms.Type_ a.
Proof.
  intros (_ & Hp & Hw) Ha. unfold Cleanrooms.Get, Cleanrooms.read_level.
  destruct (Cleanrooms.written d !! k) as [v|] eqn:Ew; [eapply Hw; eassumption|].
  destruct (Cleanrooms.planned d !! k) as [v|] eqn:Ep; [eapply Hp; eassumption|].
  apply zero_of_typed, Ha.
Qed.

Lemma Get_string (d : Cleanrooms.ResourceData) (k : string) a :
  well_typed d → Cleanrooms.schema_lookup k = Some a →
  Cleanrooms.Type_ a = Cleanrooms.TypeString →
  ∃ s, Cleanrooms.Get k d = Cleanrooms.VString s.
Proof.
  intros Hd Ha Ht. pose proof (Get_typed d k a Hd Ha) as H. rewrite Ht in H.
  destruct (Cleanrooms.Get k d); try discriminate. eauto.
Qed.

Lemma convert_typed (t : Cleanrooms.ValueType) (a : Cleanrooms.set_arg) v :
  Cleanrooms.convert t a = Some v → type_of v = t.
Proof.
  destruct t, a as [p|xs|m|[tm|]|xs]; simpl; intros [= <-]; reflexivity.
Qed.

Lemma Set_well_typed (key : string) (a : Cleanrooms.set_arg) (d : Cleanrooms.ResourceData) :
  well_typed d → well_typed (snd (Cleanrooms.Set_ key a d)).
Proof.
  intros (Hpr & Hpl & Hw). unfold Cleanrooms.Set_.
  destruct (Cleanrooms.schema_lookup key) as [att|] eqn:Ea; [|done].
  destruct (Cleanrooms.convert _ a) as [v|] eqn:Ec; [|done].
  split_and!; [exact Hpr|exact Hpl|]. simpl.
  apply typed_level_insert; [|exact Hw].
  intros a' Ha'. rewrite Ea in Ha'. injection Ha' as <-. apply convert_typed in Ec. exact Ec.
Qed.

Lemma update_input_typed (d : Cleanrooms.ResourceData) :
  well_typed d → is_Done (Cleanrooms.update_input d) = true.
Proof.
  intros Hd. unfold Cleanrooms.update_input.
  destruct (Get_string d names_AttrDescription _ Hd eq_refl eq_refl) as [s1 ->].
  destruct (Get_string d names_AttrName _ Hd eq_refl eq_refl) as [s2 ->].
  destruct (Cleanrooms.HasChanges [names_AttrDescription] d),
           (Cleanrooms.HasChanges [names_AttrName] d); reflexivity.
Qed.

(** X20.  Data typed by the schema stays so through a read, and on such
    data the update never panics: its type assertions on [name] and
    [description] meet strings. *)
Theorem well_typed_Read_Update :
  ∀ (R : Type) (conn : Cleanrooms.Client R) (d : Cleanrooms.ResourceData) (r : R),
    well_typed d →
    (∀ ds d' r', Cleanrooms.resourceConfiguredTableRead conn d r = (Done (ds, d'), r') →
                 well_typed d')
    ∧ is_Done (fst (Cleanrooms.resourceConfiguredTableUpdate conn d r)) = true.
Proof.
  intros R conn d r Hd. split.
  - intros ds d' r'. unfold Cleanrooms.resourceConfiguredTableRead.
    destruct (Cleanrooms.findConfiguredTableByID conn _ r) as [[out err] r1].
    destruct (negb _ && _); [intros [= <- <- <-]; exact Hd|].
    destruct err; [intros [= <- <- <-]; exact Hd|].
    destruct (out ≫= Cleanrooms.GetOutput_ConfiguredTable) as [t|]; [|discriminate].
    match goal with
    | |- context [Cleanrooms.Set_ "table_reference" ?a ?d0] =>
        destruct (Cleanrooms.Set_ "table_reference" a d0) as [e d''] eqn:E
    end.
    assert (well_typed d'') as H.
    { change d'' with (snd (e, d'')). rewrite <- E.
      repeat apply Set_well_typed. exact Hd. }
    destruct e; intros [= <- <- <-]; exact H.
  - unfold Cleanrooms.resourceConfiguredTableUpdate.
    pose proof (update_input_typed d Hd) as Hin.
    pose proof (ConfiguredTable_Read_never_panics R conn d) as Hread.
    destruct (Cleanrooms.HasChangesExcept _ d).
    + destruct (Cleanrooms.update_input d) as [input|]; [|discriminate].
      destruct (Cleanrooms.UpdateConfiguredTable conn input r) as [[out err] r1].
      destruct err; [reflexivity|]. specialize (Hread r1).
      destruct (Cleanrooms.resourceConfiguredTableRead conn d r1) as [[[ds d']|p] r2];
        [reflexivity|discriminate].
    + specialize (Hread r).
      destruct (Cleanrooms.resourceConfiguredTableRead conn d r) as [[[ds d']|p] r2];
        [reflexivity|discriminate].
Qed.

Lemma table_attrs_typed (name : string) : typed_level (table_attrs name).
Proof.
  unfold table_attrs.
  repeat (apply typed_level_insert;
            [intros a Ha; vm_compute in Ha; injection Ha as <-; reflexivity|]).
  apply typed_level_empty.
Qed.

Lemma well_typed_Read_Update_witness :
  is_Done (fst (Cleanrooms.resourceConfiguredTableUpdate Cleanrooms.memory_service
                  renamed {[ "ct-n1" := remote_table ]})) = true.
Proof.
  apply (well_typed_Read_Update _ Cleanrooms.memory_service renamed
           {[ "ct-n1" := remote_table ]}).
  split_and!.
  - apply table_attrs_typed.
  - unfold renamed, stored_table. simpl.
    repeat (apply typed_level_insert;
            [intros a Ha; vm_compute in Ha; injection Ha as <-; reflexivity|]).
    apply typed_level_empty.
  - apply typed_level_empty.
Defined.

(** X21.  What a create request is made of: the planned name, the members
    of [allowed_columns], the first [table_reference] block, the tags of
    the context and [DIRECT_QUERY], the only analysis method that passes;
    the description is sent only when it is not empty. *)
Theorem create_input_request :
  ∀ (tagsIn : gmap string string) (d : Cleanrooms.ResourceData) (name : string)
    (input : Cleanrooms.CreateConfiguredTableInput),
    Cleanrooms.create_input tagsIn d = Done (name, inl input) →
    Cleanrooms.Get "name" d = Cleanrooms.VString name
    ∧ Cleanrooms.CreateInput_Name input = Some name
    ∧ Cleanrooms.Get "analysis_method" d = Cleanrooms.VString "DIRECT_QUERY"
    ∧ Cleanrooms.CreateInput_Tags input = tagsIn
    ∧ (∃ cols, Cleanrooms.Get "allowed_columns" d = Cleanrooms.VSet cols
               ∧ Cleanrooms.CreateInput_AllowedColumns input = elements cols)
    ∧ (∃ data tr, Cleanrooms.Get "table_reference" d = Cleanrooms.VList data
                  ∧ Cleanrooms.expandTableReference data = Done tr
                  ∧ Cleanrooms.CreateInput_TableReference input = Some tr)
    ∧ (Cleanrooms.CreateInput_Description input = None
       ↔ Cleanrooms.Get "description" d = Cleanrooms.VString "")
    ∧ (∀ s, Cleanrooms.CreateInput_Description input = Some s →
            Cleanrooms.Get "description" d = Cleanrooms.VString s ∧ s ≠ "").
Proof.
  intros tagsIn d name input.
  unfold Cleanrooms.create_input, Cleanrooms.GetOk, names_AttrName, names_AttrDescription.
  destruct (Cleanrooms.Get "name" d) as [nm| | |]; simpl; try discriminate.
  destruct (Cleanrooms.Get "allowed_columns" d) as [|cols| |]; simpl; try discriminate.
  destruct (Cleanrooms.Get "table_reference" d) as [| |data|]; simpl; try discriminate.
  destruct (Cleanrooms.expandTableReference data) as [tr|] eqn:Etr; simpl; [|discriminate].
  destruct (Cleanrooms.Get "analysis_method" d) as [am| | |]; simpl; try discriminate.
  unfold Cleanrooms.expandAnalysisMethod.
  destruct (decide (am = "DIRECT_QUERY")) as [->|Hne];
    [|rewrite bool_decide_eq_false_2 by done; discriminate].
  rewrite bool_decide_eq_true_2 by done.
  change (Cleanrooms.zero_of "description") with (Cleanrooms.VString "").
  destruct (Cleanrooms.Get "description" d) as [ds| | |] eqn:Ed.
  - destruct (decide (ds = "")) as [->|Hds].
    + rewrite bool_decide_eq_true_2 by done. simpl. intros [= <- <-]. simpl.
      split_and!; eauto 10; [done|intros s; discriminate].
    + rewrite bool_decide_eq_false_2 by congruence. simpl. intros [= <- <-]. simpl.
      split_and!; eauto 10.
      * split; [discriminate|congruence].
      * intros s [= <-]. done.
  - rewrite bool_decide_eq_false_2 by discriminate. discriminate.
  - rewrite bool_decide_eq_false_2 by discriminate. discriminate.
  - rewrite bool_decide_eq_false_2 by discriminate. discriminate.
Qed.

Lemma create_input_request_witness :
  Cleanrooms.Get "name" new_table = Cleanrooms.VString "n1"
  ∧ Cleanrooms.Get "description" new_table = Cleanrooms.VString "".
Proof.
  destruct (create_input_request ∅ new_table "n1"
              {| Cleanrooms.CreateInput_AllowedColumns := ["c1"];
                 Cleanrooms.CreateInput_AnalysisMethod := Cleanrooms.AnalysisMethodDirectQuery;
                 Cleanrooms.CreateInput_Name := Some "n1";
                 Cleanrooms.CreateInput_TableReference :=
                   Some (Cleanrooms.TableReferenceMemberGlue
                           {| Cleanrooms.DatabaseName := Some "db";
                              Cleanrooms.TableName := Some "tb" |});
                 Cleanrooms.CreateInput_Description := None;
                 Cleanrooms.CreateInput_Tags := ∅ |})
    as (Hn & _ & _ & _ & _ & _ & Hd & _).
  - vm_compute. reflexivity.
  - split; [exact Hn|]. apply Hd. reflexivity.
Defined.

(** X22.  On data typed by the schema, the create function panics only
    through the table reference: it finishes exactly when
    [expandTableReference] returns for the planned [table_reference]
    blocks. *)
Theorem Create_panics_only_by_table_reference :
  ∀ (R : Type) (conn : Cleanrooms.Client R) (tagsIn : gmap string string)
    (d : Cleanrooms.ResourceData) (r : R) (data : list Cleanrooms.elem),
    well_typed d →
    Cleanrooms.Get "table_reference" d = Cleanrooms.VList data →
    (is_Done (fst (Cleanrooms.resourceConfiguredTableCreate conn tagsIn d r)) = true
     ↔ is_Done (Cleanrooms.expandTableReference data) = true).
Proof.
  intros R conn tagsIn d r data Hd Htr.
  unfold Cleanrooms.resourceConfiguredTableCreate, Cleanrooms.create_input,
    Cleanrooms.GetOk, names_AttrName, names_AttrDescription.
  destruct (Get_string d "name" _ Hd eq_refl eq_refl) as [nm ->].
  destruct (Get_string d "analysis_method" _ Hd eq_refl eq_refl) as [am ->].
  destruct (Get_string d "description" _ Hd eq_refl eq_refl) as [ds ->].
  pose proof (Get_typed d "allowed_columns" _ Hd eq_refl) as Hcols.
  destruct (Cleanrooms.Get "allowed_columns" d) as [|cols| |]; try discriminate.
  rewrite Htr. simpl.
  destruct (Cleanrooms.expandTableReference data) as [tr|p]; simpl; [|done].
  split; [reflexivity|intros _].
  destruct (Cleanrooms.expandAnalysisMethod am) as [m [e|]]; simpl; [reflexivity|].
  destruct (negb (bool_decide _)); simpl;
    (destruct (Cleanrooms.CreateConfiguredTable conn _ r) as [[out err] r1];
     destruct err; [reflexivity|];
     destruct (out ≫= Cleanrooms.CreateOutput_ConfiguredTable) as [t|]; [|reflexivity];
     apply ConfiguredTable_Read_never_panics).
Qed.

Lemma Create_panics_only_by_table_reference_witness :
  is_Done (fst (Cleanrooms.resourceConfiguredTableCreate Cleanrooms.memory_service ∅
                  new_table ∅)) = true.
Proof.
  apply (Create_panics_only_by_table_reference _ Cleanrooms.memory_service ∅ new_table ∅
           [glue_block "db" "tb"]).
  - split_and!; [apply typed_level_empty|apply table_attrs_typed|apply typed_level_empty].
  - vm_compute. reflexivity.
  - reflexivity.
Defined.
